(** * SafeRice-Server: the request handlers of [server.js]

    A shallow embedding of the Express application of [src/server.js]:
    the JavaScript values the handlers look at, the regular expression of
    the profile route, the four MySQL tables with the SQL statements the
    handlers send, and every route as a function in a small monad that
    threads the database, records the calls made to the database driver,
    bcrypt and jsonwebtoken, and has the early [return res...] and the
    [try]/[catch] of the source.

    What the model takes as given:
    - requests are served one after the other, each on the database the
      previous one left;
    - the connection is up, so a statement is executed and does not
      reject; the exceptions that reach a [catch] are those bcryptjs
      raises on arguments that are not strings;
    - a field of the JSON body is absent, [null] or a string;
    - a [Date] is its number of milliseconds, an integer, and a time
      column gives back the time that was stored;
    - bcrypt, jsonwebtoken and the collation of the text columns are
      parameters: nothing is assumed of them. *)

From Stdlib Require Import ZArith List String Ascii Bool Lia.
Import ListNotations.

Local Open Scope string_scope.
Local Open Scope Z_scope.

(* ------------------------------------------------------------------ *)
(** ** JavaScript values and strings *)

Module JS.

(** A field of [req.body] after [express.json()]: absent ([undefined]),
    [null], or a string.  Characters are code units below 256. *)
Inductive value : Type :=
| Undefined
| Null
| Str (s : string).

(** [!v] is [negb (truthy v)]. *)
Definition truthy (v : value) : bool :=
  match v with
  | Undefined | Null => false
  | Str s => negb (String.eqb s "")
  end.

(** [a === b]. *)
Definition strict_eq (a b : value) : bool :=
  match a, b with
  | Undefined, Undefined => true
  | Null, Null => true
  | Str s, Str t => String.eqb s t
  | _, _ => false
  end.

(** [String(v)], the coercion [RegExp.prototype.test] applies. *)
Definition to_string (v : value) : string :=
  match v with
  | Undefined => "undefined"
  | Null => "null"
  | Str s => s
  end.

(** [typeof v], as bcryptjs prints it in its error message. *)
Definition typeof (v : value) : string :=
  match v with
  | Undefined => "undefined"
  | Null => "object"
  | Str _ => "string"
  end.

(** [s.split(sep)] for a one-character separator: the piece before the
    first separator, and the pieces after it. *)
Fixpoint split_from (sep : ascii) (s : string) : string * list string :=
  match s with
  | EmptyString => (EmptyString, [])
  | String c rest =>
      let '(piece, pieces) := split_from sep rest in
      if Ascii.eqb c sep then (EmptyString, piece :: pieces)
      else (String c piece, pieces)
  end.

Definition split (sep : ascii) (s : string) : list string :=
  let '(piece, pieces) := split_from sep s in piece :: pieces.

(** [c] does not occur in [s]. *)
Fixpoint lacks (c : ascii) (s : string) : bool :=
  match s with
  | EmptyString => true
  | String d rest => negb (Ascii.eqb d c) && lacks c rest
  end.

End JS.

(* ------------------------------------------------------------------ *)
(** ** Regular expressions, as far as [/\S+@\S+\.\S+/.test] needs them *)

Module Regex.

(** [\s] on code units below 256: TAB, LF, VT, FF, CR, SPACE, NBSP. *)
Definition is_space (c : ascii) : bool :=
  let n := nat_of_ascii c in
  (Nat.eqb n 9 || Nat.eqb n 10 || Nat.eqb n 11 || Nat.eqb n 12
   || Nat.eqb n 13 || Nat.eqb n 32 || Nat.eqb n 160)%bool.

Inductive atom : Type :=
| Lit (c : ascii)      (* a literal character, e.g. [@] or [\.] *)
| NonSpace.            (* [\S] *)

Definition accepts (a : atom) (c : ascii) : bool :=
  match a with
  | Lit d => Ascii.eqb c d
  | NonSpace => negb (is_space c)
  end.

Inductive regex : Type :=
| Void
| Eps
| One (a : atom)
| Cat (r1 r2 : regex)
| Alt (r1 r2 : regex)
| Star (r : regex).

(** [r+] *)
Definition Plus (r : regex) : regex := Cat r (Star r).

Fixpoint nullable (r : regex) : bool :=
  match r with
  | Void => false
  | Eps => true
  | One _ => false
  | Cat r1 r2 => nullable r1 && nullable r2
  | Alt r1 r2 => nullable r1 || nullable r2
  | Star _ => true
  end.

(** The residual of [r] after reading [c]. *)
Fixpoint deriv (c : ascii) (r : regex) : regex :=
  match r with
  | Void => Void
  | Eps => Void
  | One a => if accepts a c then Eps else Void
  | Cat r1 r2 =>
      Alt (Cat (deriv c r1) r2) (if nullable r1 then deriv c r2 else Void)
  | Alt r1 r2 => Alt (deriv c r1) (deriv c r2)
  | Star r1 => Cat (deriv c r1) (Star r1)
  end.

(** Some prefix of [s] matches [r]. *)
Fixpoint matches_prefix (r : regex) (s : string) : bool :=
  nullable r ||
  match s with
  | EmptyString => false
  | String c rest => matches_prefix (deriv c r) rest
  end.

(** [r.test(s)] for a pattern without anchors and without the [g] flag:
    a match may start at any position of [s]. *)
Fixpoint test (r : regex) (s : string) : bool :=
  matches_prefix r s ||
  match s with
  | EmptyString => false
  | String _ rest => test r rest
  end.

(** The words of a pattern. *)
Inductive matches : regex -> string -> Prop :=
| matches_eps : matches Eps ""
| matches_one (a : atom) (c : ascii) :
    accepts a c = true -> matches (One a) (String c "")
| matches_cat (r1 r2 : regex) (s1 s2 : string) :
    matches r1 s1 -> matches r2 s2 -> matches (Cat r1 r2) (s1 ++ s2)
| matches_alt_left (r1 r2 : regex) (s : string) :
    matches r1 s -> matches (Alt r1 r2) s
| matches_alt_right (r1 r2 : regex) (s : string) :
    matches r2 s -> matches (Alt r1 r2) s
| matches_star_stop (r : regex) : matches (Star r) ""
| matches_star_more (r : regex) (s1 s2 : string) :
    matches r s1 -> matches (Star r) s2 -> matches (Star r) (s1 ++ s2).

(** [/\S+@\S+\.\S+/] *)
Definition email_pattern : regex :=
  Cat (Plus (One NonSpace))
    (Cat (One (Lit "@"))
       (Cat (Plus (One NonSpace))
          (Cat (One (Lit ".")) (Plus (One NonSpace))))).

(** Every word of [r] holds an [@]: a sufficient syntactic test. *)
Fixpoint needs_at (r : regex) : bool :=
  match r with
  | Void => true
  | Eps => false
  | One (Lit c) => Ascii.eqb c "@"
  | One NonSpace => false
  | Cat r1 r2 => needs_at r1 || needs_at r2
  | Alt r1 r2 => needs_at r1 && needs_at r2
  | Star _ => false
  end.

End Regex.

(* ------------------------------------------------------------------ *)
(** ** The MySQL database: tables and the statements of [server.js] *)

Module Db.

(** A text column: SQL [NULL] or a string. *)
Definition text : Type := option string.

(** What the driver sends for a [?] bound to a body field: sqlstring
    escapes [undefined] and [null] as [NULL]. *)
Definition bind (v : JS.value) : text :=
  match v with
  | JS.Undefined | JS.Null => None
  | JS.Str s => Some s
  end.

Record user_row : Type := {
  id : Z;
  first_name : text;
  last_name : text;
  username : text;
  email : text;
  password : text
}.

(** Times are milliseconds since the epoch, as [Date] has them. *)
Record log_row : Type := {
  user_id : Z;
  login_time : Z;
  logout_time : option Z;
  session_duration : option Z
}.

Record product_row : Type := {
  product_id : Z;
  product : text;
  disease : text;
  purchase_link : text
}.

(** A row of [disease_solutions], whose columns the source does not
    name: each column with its value. *)
Inductive cell : Type :=
| Int (n : Z)
| Text (t : text).

Definition solution_row : Type := list (string * cell).

Record database : Type := {
  users : list user_row;
  users_auto_increment : Z;
  user_log : list log_row;
  disease_solutions : list solution_row;
  disease_products : list product_row
}.

Section Statements.

(** [a = b] on two strings under the collation of the [users] columns. *)
Variable collate : string -> string -> bool.

(** SQL [column = ?]: never true when either side is [NULL]. *)
Definition text_eq (column param : text) : bool :=
  match column, param with
  | Some a, Some b => collate a b
  | _, _ => false
  end.

Definition is_null {A : Type} (c : option A) : bool :=
  match c with
  | None => true
  | Some _ => false
  end.

Definition with_users (d : database) (us : list user_row) (next : Z)
  : database :=
  {| users := us;
     users_auto_increment := next;
     user_log := user_log d;
     disease_solutions := disease_solutions d;
     disease_products := disease_products d |}.

Definition with_user_log (d : database) (log : list log_row) : database :=
  {| users := users d;
     users_auto_increment := users_auto_increment d;
     user_log := log;
     disease_solutions := disease_solutions d;
     disease_products := disease_products d |}.

(** [SELECT * FROM users WHERE username = ? OR email = ?] *)
Definition select_users_by_username_or_email
    (d : database) (un em : text) : list user_row :=
  filter (fun u => text_eq (username u) un || text_eq (email u) em)
    (users d).

(** [INSERT INTO users (first_name, last_name, username, email, password)
    VALUES (?, ?, ?, ?, ?)] *)
Definition insert_user (d : database) (fn ln un em pw : text) : database :=
  with_users d
    (users d ++
       [{| id := users_auto_increment d;
           first_name := fn; last_name := ln;
           username := un; email := em; password := pw |}])
    (users_auto_increment d + 1).

(** [SELECT * FROM users WHERE username = ?] *)
Definition select_users_by_username (d : database) (un : text)
  : list user_row :=
  filter (fun u => text_eq (username u) un) (users d).

(** [INSERT INTO user_log (user_id, login_time) VALUES (?, ?)] *)
Definition insert_log (d : database) (uid time : Z) : database :=
  with_user_log d
    (user_log d ++
       [{| user_id := uid; login_time := time;
           logout_time := None; session_duration := None |}]).

(** [WHERE user_id = ? AND logout_time IS NULL] *)
Definition open_for (uid : Z) (r : log_row) : bool :=
  (user_id r =? uid) && is_null (logout_time r).

(** [ORDER BY login_time DESC LIMIT 1]: a row with the greatest
    [login_time], if there is a row at all. *)
Fixpoint latest (rows : list log_row) : list log_row :=
  match rows with
  | [] => []
  | r :: rest =>
      match latest rest with
      | m :: _ => if login_time r <? login_time m then [m] else [r]
      | [] => [r]
      end
  end.

(** [SELECT * FROM user_log WHERE user_id = ? AND logout_time IS NULL
    ORDER BY login_time DESC LIMIT 1] *)
Definition select_latest_open_log (d : database) (uid : Z)
  : list log_row :=
  latest (filter (open_for uid) (user_log d)).

(** [UPDATE user_log SET logout_time = ?, session_duration = ?
    WHERE user_id = ? AND logout_time IS NULL] *)
Definition close_row (time duration uid : Z) (r : log_row) : log_row :=
  if open_for uid r then
    {| user_id := user_id r; login_time := login_time r;
       logout_time := Some time; session_duration := Some duration |}
  else r.

Definition update_open_logs (d : database) (time duration uid : Z)
  : database :=
  with_user_log d (map (close_row time duration uid) (user_log d)).

(** [SELECT ... FROM users WHERE id = ?] *)
Definition select_users_by_id (d : database) (uid : Z) : list user_row :=
  filter (fun u => id u =? uid) (users d).

(** [SELECT id FROM users WHERE (username = ? OR email = ?) AND id != ?] *)
Definition select_other_users (d : database) (un em : text) (uid : Z)
  : list Z :=
  map id
    (filter
       (fun u => (text_eq (username u) un || text_eq (email u) em)
                 && negb (id u =? uid))
       (users d)).

(** [UPDATE users SET first_name = ?, last_name = ?, username = ?,
    email = ? WHERE id = ?], with the [affectedRows] of the result: the
    driver connects with the found-rows flag, so these are the rows the
    [WHERE] matched. *)
Definition set_profile (fn ln un em : text) (uid : Z) (u : user_row)
  : user_row :=
  if id u =? uid then
    {| id := id u; first_name := fn; last_name := ln;
       username := un; email := em; password := password u |}
  else u.

Definition update_user (d : database) (fn ln un em : text) (uid : Z)
  : Z * database :=
  (Z.of_nat (List.length (select_users_by_id d uid)),
   with_users d (map (set_profile fn ln un em uid) (users d))
     (users_auto_increment d)).

(** [SELECT DISTINCT disease FROM disease_products] *)
Fixpoint distinct (seen : list text) (cs : list text) : list text :=
  match cs with
  | [] => []
  | c :: rest =>
      if existsb
           (fun s => match s, c with
                     | None, None => true
                     | Some a, Some b => String.eqb a b
                     | _, _ => false
                     end) seen
      then distinct seen rest
      else c :: distinct (c :: seen) rest
  end.

Definition select_distinct_diseases (d : database) : list text :=
  distinct [] (map disease (disease_products d)).

End Statements.

End Db.

(* ------------------------------------------------------------------ *)
(** ** Requests and responses *)

Module Http.

Inductive json : Type :=
| JString (s : string)
| JNumber (n : Z)
| JBool (b : bool)
| JNull.

Definition object : Type := list (string * json).

(** What [res.json] or [res.send] was given. *)
Inductive payload : Type :=
| Json (o : object)
| JsonArray (rows : list object)
| Plain (s : string).

Record response : Type := {
  status : Z;
  body : payload
}.

Inductive route : Type :=
| PostSignup
| PostLogin
| PostLogout
| GetUsername
| GetProfile
| PutUpdateProfile
| GetDiseaseSolutions
| GetDiseases
| GetMedicine.

(** A request: its route, its [Authorization] header if it has one, and
    the properties of [req.body]. *)
Record request : Type := {
  target : route;
  authorization : option string;
  properties : list (string * JS.value)
}.

(** [req.body.key]: [undefined] when the body has no such property. *)
Fixpoint lookup (o : list (string * JS.value)) (key : string) : JS.value :=
  match o with
  | [] => JS.Undefined
  | (k, v) :: rest => if String.eqb k key then v else lookup rest key
  end.

Definition field (req : request) (key : string) : JS.value :=
  lookup (properties req) key.

Definition of_text (t : Db.text) : json :=
  match t with
  | None => JNull
  | Some s => JString s
  end.

Definition of_cell (c : Db.cell) : json :=
  match c with
  | Db.Int n => JNumber n
  | Db.Text t => of_text t
  end.

(** [{ message: m }] *)
Definition message (m : string) : payload := Json [("message", JString m)].

(** The keys of a JSON body; an array or a text has none. *)
Definition keys (p : payload) : list string :=
  match p with
  | Json o => map fst o
  | JsonArray _ | Plain _ => []
  end.

End Http.

(* ------------------------------------------------------------------ *)
(** ** The handlers *)

(** The payload of the token, [{ id, username }], which the auth gate puts
    in [req.user]. *)
Record identity : Type := {
  ident_id : Z;
  ident_username : Db.text
}.

(** What a request reads from outside the process: the clock ([new Date()],
    milliseconds) and the salt bcrypt draws. *)
Record env : Type := {
  now : Z;
  salt : string
}.

(** A [?] of a statement with the value bound to it. *)
Inductive param : Type :=
| PText (t : Db.text)
| PInt (n : Z)
| PDate (ms : Z).

(** A call that leaves the handler. *)
Inductive call : Type :=
| DbQuery (sql : string) (params : list param)
| BcryptHash (s : JS.value) (rounds : Z)
| BcryptCompare (s : JS.value) (hash : Db.text)
| JwtSign (payload : identity)
| JwtVerify (token : string).

Definition is_query (c : call) : bool :=
  match c with
  | DbQuery _ _ => true
  | _ => false
  end.

(** The database and the calls made so far, oldest first. *)
Record world : Type := {
  db : Db.database;
  calls : list call
}.

(** How a piece of a handler ends: with a value, with the response sent
    ([return res.status(..).json(..)]), or with an exception. *)
Inductive outcome (A : Type) : Type :=
| Value (a : A)
| Sent (r : Http.response)
| Thrown (err : string).

Arguments Value {A} a.
Arguments Sent {A} r.
Arguments Thrown {A} err.

Definition action (A : Type) : Type := world -> outcome A * world.

Definition ret {A : Type} (a : A) : action A := fun w => (Value a, w).

Definition bind {A B : Type} (m : action A) (k : A -> action B) : action B :=
  fun w =>
    match m w with
    | (Value a, w') => k a w'
    | (Sent r, w') => (Sent r, w')
    | (Thrown err, w') => (Thrown err, w')
    end.

Notation "x <- m ;; k" := (bind m (fun x => k))
  (at level 61, m at next level, right associativity).

(** [res.status(code).json(body)] *)
Definition send {A : Type} (code : Z) (p : Http.payload) : action A :=
  fun w => (Sent {| Http.status := code; Http.body := p |}, w).

Definition throw {A : Type} (err : string) : action A :=
  fun w => (Thrown err, w).

(** [try { body } catch (err) { handler }] *)
Definition try_catch {A : Type} (body : action A) (handler : string -> action A)
  : action A :=
  fun w =>
    match body w with
    | (Thrown err, w') => handler err w'
    | other => other
    end.

Definition record (c : call) : action unit :=
  fun w => (Value tt, {| db := db w; calls := calls w ++ [c] |}).

Definition read {A : Type} (f : Db.database -> A) : action A :=
  fun w => (Value (f (db w)), w).

Definition write (f : Db.database -> Db.database) : action unit :=
  fun w => (Value tt, {| db := f (db w); calls := calls w |}).

Section Server.

(** The collation of the text columns. *)
Variable collate : string -> string -> bool.

(** bcryptjs on strings: the hash of a password for a number of rounds
    and a salt, and the comparison of a password with a stored hash. *)
Variable bcrypt_hash : string -> Z -> string -> string.
Variable bcrypt_compare : string -> string -> bool.

(** jsonwebtoken under [process.env.JWT_SECRET]: the token signed for a
    payload at a time with [expiresIn: '1h'], and the payload of a token
    that verifies at a time. *)
Variable jwt_sign : identity -> Z -> string.
Variable jwt_verify : string -> Z -> option identity.

(** *** The calls that leave the handler *)

(** [db.query('SELECT * FROM users WHERE username = ? OR email = ?', ..)] *)
Definition query_users_by_username_or_email (username email : JS.value)
  : action (list Db.user_row) :=
  _ <- record (DbQuery "SELECT * FROM users WHERE username = ? OR email = ?"
                 [PText (Db.bind username); PText (Db.bind email)]) ;;
  read (fun d => Db.select_users_by_username_or_email collate d
                   (Db.bind username) (Db.bind email)).

Definition query_insert_user
    (firstName lastName username email : JS.value) (hashedPassword : string)
  : action unit :=
  _ <- record
         (DbQuery "INSERT INTO users (first_name, last_name, username, email, password) VALUES (?, ?, ?, ?, ?)"
            [PText (Db.bind firstName); PText (Db.bind lastName);
             PText (Db.bind username); PText (Db.bind email);
             PText (Some hashedPassword)]) ;;
  write (fun d => Db.insert_user d (Db.bind firstName) (Db.bind lastName)
                    (Db.bind username) (Db.bind email) (Some hashedPassword)).

Definition query_users_by_username (username : JS.value)
  : action (list Db.user_row) :=
  _ <- record (DbQuery "SELECT * FROM users WHERE username = ?"
                 [PText (Db.bind username)]) ;;
  read (fun d => Db.select_users_by_username collate d (Db.bind username)).

Definition query_insert_log (userId loginTime : Z) : action unit :=
  _ <- record (DbQuery "INSERT INTO user_log (user_id, login_time) VALUES (?, ?)"
                 [PInt userId; PDate loginTime]) ;;
  write (fun d => Db.insert_log d userId loginTime).

Definition query_latest_open_log (userId : Z) : action (list Db.log_row) :=
  _ <- record
         (DbQuery "SELECT * FROM user_log WHERE user_id = ? AND logout_time IS NULL ORDER BY login_time DESC LIMIT 1"
            [PInt userId]) ;;
  read (fun d => Db.select_latest_open_log d userId).

Definition query_update_open_logs (logoutTime sessionDuration userId : Z)
  : action unit :=
  _ <- record
         (DbQuery "UPDATE user_log SET logout_time = ?, session_duration = ? WHERE user_id = ? AND logout_time IS NULL"
            [PDate logoutTime; PInt sessionDuration; PInt userId]) ;;
  write (fun d => Db.update_open_logs d logoutTime sessionDuration userId).

Definition query_users_by_id (sql : string) (userId : Z)
  : action (list Db.user_row) :=
  _ <- record (DbQuery sql [PInt userId]) ;;
  read (fun d => Db.select_users_by_id d userId).

Definition query_other_users (username email : JS.value) (userId : Z)
  : action (list Z) :=
  _ <- record
         (DbQuery "SELECT id FROM users WHERE (username = ? OR email = ?) AND id != ?"
            [PText (Db.bind username); PText (Db.bind email); PInt userId]) ;;
  read (fun d => Db.select_other_users collate d
                   (Db.bind username) (Db.bind email) userId).

(** The [affectedRows] of the result. *)
Definition query_update_user
    (firstName lastName username email : JS.value) (userId : Z) : action Z :=
  _ <- record
         (DbQuery "UPDATE users SET first_name = ?, last_name = ?, username = ?, email = ? WHERE id = ?"
            [PText (Db.bind firstName); PText (Db.bind lastName);
             PText (Db.bind username); PText (Db.bind email); PInt userId]) ;;
  affected <- read (fun d => fst (Db.update_user d (Db.bind firstName)
                                    (Db.bind lastName) (Db.bind username)
                                    (Db.bind email) userId)) ;;
  _ <- write (fun d => snd (Db.update_user d (Db.bind firstName)
                              (Db.bind lastName) (Db.bind username)
                              (Db.bind email) userId)) ;;
  ret affected.

Definition query_table {A : Type} (sql : string) (f : Db.database -> A)
  : action A :=
  _ <- record (DbQuery sql []) ;;
  read f.

(** [bcrypt.hash(s, rounds)]: rejects unless [s] is a string. *)
Definition bcrypt_hash_call (e : env) (s : JS.value) (rounds : Z)
  : action string :=
  _ <- record (BcryptHash s rounds) ;;
  match s with
  | JS.Str p => ret (bcrypt_hash p rounds (salt e))
  | _ => throw ("Illegal arguments: " ++ JS.typeof s ++ ", number")
  end.

(** [bcrypt.compare(s, hash)]: rejects unless both are strings. *)
Definition bcrypt_compare_call (s : JS.value) (hash : Db.text)
  : action bool :=
  _ <- record (BcryptCompare s hash) ;;
  match s, hash with
  | JS.Str p, Some h => ret (bcrypt_compare p h)
  | _, _ =>
      throw ("Illegal arguments: " ++ JS.typeof s ++ ", "
             ++ match hash with Some _ => "string" | None => "object" end)
  end.

Definition jwt_sign_call (e : env) (payload : identity) : action string :=
  _ <- record (JwtSign payload) ;;
  ret (jwt_sign payload (now e)).

(** [jwt.verify(token, secret, callback)]: [None] is the callback's
    [err]. *)
Definition jwt_verify_call (e : env) (token : string)
  : action (option identity) :=
  _ <- record (JwtVerify token) ;;
  ret (jwt_verify token (now e)).

(** *** The auth gate *)

(** [req.header('Authorization')?.split(' ')[1]] *)
Definition bearer (req : Http.request) : option string :=
  match Http.authorization req with
  | None => None
  | Some h => nth_error (JS.split " " h) 1
  end.

(** [if (!token)] rejects the absent token and the empty one. *)
Definition authenticateToken (e : env) (req : Http.request)
    (next : identity -> action unit) : action unit :=
  match bearer req with
  | Some token =>
      if String.eqb token "" then send 403 (Http.message "Access Denied")
      else
        verified <- jwt_verify_call e token ;;
        match verified with
        | None => send 403 (Http.message "Invalid token")
        | Some user => next user
        end
  | None => send 403 (Http.message "Access Denied")
  end.

(** *** The routes *)

Definition invalid_login : Http.payload :=
  Http.message "Invalid username or password".

(** [res.status(500).json({ error: err.message })] *)
Definition internal_error {A : Type} (err : string) : action A :=
  send 500 (Http.Json [("error", Http.JString err)]).

(** [app.post('/signup', ...)] *)
Definition signup (e : env) (req : Http.request) : action unit :=
  let firstName := Http.field req "firstName" in
  let lastName := Http.field req "lastName" in
  let username := Http.field req "username" in
  let email := Http.field req "email" in
  let password := Http.field req "password" in
  let confirmPassword := Http.field req "confirmPassword" in
  if negb (JS.truthy firstName) || negb (JS.truthy lastName)
     || negb (JS.truthy username) || negb (JS.truthy email)
     || negb (JS.truthy password) || negb (JS.truthy confirmPassword)
  then send 400 (Http.message "All fields are required")
  else if negb (JS.strict_eq password confirmPassword)
  then send 400 (Http.message "Passwords do not match")
  else
    try_catch
      (results <- query_users_by_username_or_email username email ;;
       if (0 <? Z.of_nat (List.length results))
       then send 400
              (Http.message "User already exists with this username or email")
       else
         hashedPassword <- bcrypt_hash_call e password 10 ;;
         _ <- query_insert_user firstName lastName username email
                hashedPassword ;;
         send 201 (Http.Json [("success", Http.JBool true);
                              ("message", Http.JString "Signup successful")]))
      internal_error.

(** [app.post('/login', ...)] *)
Definition login (e : env) (req : Http.request) : action unit :=
  let username := Http.field req "username" in
  let password := Http.field req "password" in
  try_catch
    (results <- query_users_by_username username ;;
     match results with
     | [] => send 400 invalid_login
     | user :: _ =>
         isMatch <- bcrypt_compare_call password (Db.password user) ;;
         if negb isMatch then send 400 invalid_login
         else
           token <- jwt_sign_call e
                      {| ident_id := Db.id user;
                         ident_username := Db.username user |} ;;
           let loginTime := now e in
           _ <- query_insert_log (Db.id user) loginTime ;;
           send 200 (Http.Json [("success", Http.JBool true);
                                ("token", Http.JString token);
                                ("use_id", Http.JNumber (Db.id user))])
     end)
    internal_error.

(** [Math.floor((logoutTime - new Date(login_time)) / 1000)] *)
Definition sessionDuration (logoutTime loginTime : Z) : Z :=
  (logoutTime - loginTime) / 1000.

(** [app.post('/logout', authenticateToken, ...)], after the gate. *)
Definition logout (e : env) (user : identity) : action unit :=
  let userId := ident_id user in
  let logoutTime := now e in
  try_catch
    (results <- query_latest_open_log userId ;;
     match results with
     | [] => send 400 (Http.message "No active session found")
     | session :: _ =>
         let duration := sessionDuration logoutTime (Db.login_time session) in
         _ <- query_update_open_logs logoutTime duration userId ;;
         send 200 (Http.Json [("success", Http.JBool true)])
     end)
    internal_error.

(** [app.get('/getUsername', authenticateToken, ...)], after the gate. *)
Definition getUsername (user : identity) : action unit :=
  try_catch
    (results <- query_users_by_id "SELECT username FROM users WHERE id = ?"
                  (ident_id user) ;;
     match results with
     | [] => send 404 (Http.message "User not found")
     | row :: _ =>
         send 200 (Http.Json [("username", Http.of_text (Db.username row))])
     end)
    internal_error.

(** [app.get('/getProfile', authenticateToken, ...)], after the gate. *)
Definition getProfile (user : identity) : action unit :=
  try_catch
    (results <- query_users_by_id
                  "SELECT username, email, first_name, last_name FROM users WHERE id = ?"
                  (ident_id user) ;;
     match results with
     | [] => send 404 (Http.message "User not found")
     | row :: _ =>
         send 200 (Http.Json [("username", Http.of_text (Db.username row));
                              ("email", Http.of_text (Db.email row));
                              ("first_name", Http.of_text (Db.first_name row));
                              ("last_name", Http.of_text (Db.last_name row))])
     end)
    internal_error.

(** [app.put('/updateProfile', authenticateToken, ...)], after the gate. *)
Definition updateProfile (req : Http.request) (user : identity)
  : action unit :=
  try_catch
    (let userId := ident_id user in
     let firstName := Http.field req "firstName" in
     let lastName := Http.field req "lastName" in
     let username := Http.field req "username" in
     let email := Http.field req "email" in
     if negb (Regex.test Regex.email_pattern (JS.to_string email))
     then send 400 (Http.message "Invalid email format")
     else
       existingUsers <- query_other_users username email userId ;;
       if (0 <? Z.of_nat (List.length existingUsers))
       then send 400 (Http.message "Username or email already in use")
       else
         affectedRows <- query_update_user firstName lastName username email
                           userId ;;
         if affectedRows =? 0
         then send 404 (Http.message "User not found or no changes made")
         else send 200 (Http.message "Profile updated successfully"))
    (fun err =>
       send 500 (Http.Json [("message", Http.JString "Server error");
                            ("error", Http.JString err)])).

(** [app.get('/getDiseaseSolutions', ...)] *)
Definition getDiseaseSolutions : action unit :=
  try_catch
    (results <- query_table "SELECT * FROM disease_solutions"
                  Db.disease_solutions ;;
     send 200
       (Http.JsonArray
          (map (map (fun kv => (fst kv, Http.of_cell (snd kv)))) results)))
    (fun _ => send 500 (Http.Plain "Error fetching disease solutions")).

(** [app.get('/getDiseases', ...)] *)
Definition getDiseases : action unit :=
  try_catch
    (results <- query_table "SELECT DISTINCT disease FROM disease_products"
                  Db.select_distinct_diseases ;;
     send 200
       (Http.JsonArray
          (map (fun d => [("disease", Http.of_text d)]) results)))
    (fun _ => send 500 (Http.Plain "Error fetching diseases")).

(** [app.get('/getMedicine', ...)] *)
Definition getMedicine : action unit :=
  try_catch
    (rows <- query_table
               "SELECT id, product AS name, disease, purchase_link AS link FROM disease_products"
               Db.disease_products ;;
     send 200
       (Http.JsonArray
          (map (fun p => [("id", Http.JNumber (Db.product_id p));
                          ("name", Http.of_text (Db.product p));
                          ("disease", Http.of_text (Db.disease p));
                          ("link", Http.of_text (Db.purchase_link p))])
             rows)))
    (fun _ => send 500 (Http.Plain "Error fetching medicine data")).

(** The application: the route table of [server.js]. *)
Definition app (e : env) (req : Http.request) : action unit :=
  match Http.target req with
  | Http.PostSignup => signup e req
  | Http.PostLogin => login e req
  | Http.PostLogout => authenticateToken e req (logout e)
  | Http.GetUsername => authenticateToken e req getUsername
  | Http.GetProfile => authenticateToken e req getProfile
  | Http.PutUpdateProfile => authenticateToken e req (updateProfile req)
  | Http.GetDiseaseSolutions => getDiseaseSolutions
  | Http.GetDiseases => getDiseases
  | Http.GetMedicine => getMedicine
  end.

(** One request served on a database: the response if one was sent, the
    database afterwards, and the calls the handler made. *)
Definition respond (m : action unit) (d : Db.database)
  : option Http.response * Db.database * list call :=
  match m {| db := d; calls := [] |} with
  | (Sent r, w) => (Some r, db w, calls w)
  | (_, w) => (None, db w, calls w)
  end.

Definition reply (m : action unit) (d : Db.database) : option Http.response :=
  fst (fst (respond m d)).

Definition after (m : action unit) (d : Db.database) : Db.database :=
  snd (fst (respond m d)).

Definition made (m : action unit) (d : Db.database) : list call :=
  snd (respond m d).

Definition serve (e : env) (req : Http.request) (d : Db.database)
  : option Http.response * Db.database * list call :=
  respond (app e req) d.

End Server.

(* ------------------------------------------------------------------ *)
(** ** Responses, predicates and calls the statements use *)

(** The two states of a session record. *)
Definition is_open (r : Db.log_row) : Prop := Db.logout_time r = None.
Definition is_closed (r : Db.log_row) : Prop := Db.logout_time r <> None.

(** The record [r] once closed at [time] with [duration]. *)
Definition closed_at (time duration : Z) (r : Db.log_row) : Db.log_row :=
  {| Db.user_id := Db.user_id r;
     Db.login_time := Db.login_time r;
     Db.logout_time := Some time;
     Db.session_duration := Some duration |}.

(** The user has no OPEN record: every session record whose [user_id] is
    the user's has its logout time set. *)
Definition no_open_record (d : Db.database) (uid : Z) : Prop :=
  forall r, In r (Db.user_log d) -> Db.user_id r = uid -> is_closed r.

(** [NoActiveSession] at the boundary. *)
Definition no_active_session : Http.response :=
  {| Http.status := 400; Http.body := Http.message "No active session found" |}.

(** [InvalidCredentials] at the boundary of [/login]. *)
Definition invalid_credentials : Http.response :=
  {| Http.status := 400; Http.body := invalid_login |}.

(** [Conflict] at the boundary of [/signup]. *)
Definition conflict : Http.response :=
  {| Http.status := 400;
     Http.body :=
       Http.message "User already exists with this username or email" |}.

(** The fields [/signup] requires. *)
Definition required_fields : list string :=
  ["firstName"; "lastName"; "username"; "email"; "password";
   "confirmPassword"].

(** A field that is missing or empty. *)
Definition blank (v : JS.value) : Prop :=
  v = JS.Undefined \/ v = JS.Null \/ v = JS.Str "".

(** A signup body that passes both checks of the handler. *)
Definition well_formed_signup (req : Http.request) : Prop :=
  (forall k, In k required_fields -> ~ blank (Http.field req k)) /\
  Http.field req "password" = Http.field req "confirmPassword".

(** Some user already has the username or the email of the request. *)
Definition taken (collate : string -> string -> bool) (d : Db.database)
    (req : Http.request) : Prop :=
  exists u, In u (Db.users d) /\
    (Db.text_eq collate (Db.username u)
       (Db.bind (Http.field req "username")) = true \/
     Db.text_eq collate (Db.email u)
       (Db.bind (Http.field req "email")) = true).

(** The queries of the logout handler, as the driver sees them. *)
Definition logout_select (uid : Z) : call :=
  DbQuery "SELECT * FROM user_log WHERE user_id = ? AND logout_time IS NULL ORDER BY login_time DESC LIMIT 1"
    [PInt uid].

Definition logout_update (time duration uid : Z) : call :=
  DbQuery "UPDATE user_log SET logout_time = ?, session_duration = ? WHERE user_id = ? AND logout_time IS NULL"
    [PDate time; PInt duration; PInt uid].

(** The calls of the signup handler. *)
Definition signup_select (req : Http.request) : call :=
  DbQuery "SELECT * FROM users WHERE username = ? OR email = ?"
    [PText (Db.bind (Http.field req "username"));
     PText (Db.bind (Http.field req "email"))].

Definition signup_insert (req : Http.request) (hashed : string) : call :=
  DbQuery "INSERT INTO users (first_name, last_name, username, email, password) VALUES (?, ?, ?, ?, ?)"
    [PText (Db.bind (Http.field req "firstName"));
     PText (Db.bind (Http.field req "lastName"));
     PText (Db.bind (Http.field req "username"));
     PText (Db.bind (Http.field req "email"));
     PText (Some hashed)].

(** The first check of the signup handler: some required field is falsy. *)
Definition some_field_falsy (req : Http.request) : bool :=
  negb (JS.truthy (Http.field req "firstName"))
  || negb (JS.truthy (Http.field req "lastName"))
  || negb (JS.truthy (Http.field req "username"))
  || negb (JS.truthy (Http.field req "email"))
  || negb (JS.truthy (Http.field req "password"))
  || negb (JS.truthy (Http.field req "confirmPassword")).

(** The success response of [/signup]. *)
Definition created : Http.response :=
  {| Http.status := 201;
     Http.body := Http.Json [("success", Http.JBool true);
                             ("message", Http.JString "Signup successful")] |}.

(** The user row the signup handler inserts. *)
Definition new_user (d : Db.database) (req : Http.request) (hashed : string)
  : Db.user_row :=
  {| Db.id := Db.users_auto_increment d;
     Db.first_name := Db.bind (Http.field req "firstName");
     Db.last_name := Db.bind (Http.field req "lastName");
     Db.username := Db.bind (Http.field req "username");
     Db.email := Db.bind (Http.field req "email");
     Db.password := Some hashed |}.

(** The calls of the login handler. *)
Definition login_select (req : Http.request) : call :=
  DbQuery "SELECT * FROM users WHERE username = ?"
    [PText (Db.bind (Http.field req "username"))].

Definition login_insert (uid time : Z) : call :=
  DbQuery "INSERT INTO user_log (user_id, login_time) VALUES (?, ?)"
    [PInt uid; PDate time].

(** The 500 of a handler whose [catch] got bcryptjs's complaint about the
    arguments of [compare]. *)
Definition illegal_arguments (s : JS.value) (hash : Db.text) : Http.response :=
  {| Http.status := 500;
     Http.body :=
       Http.Json
         [("error",
           Http.JString
             ("Illegal arguments: " ++ JS.typeof s ++ ", "
              ++ match hash with Some _ => "string" | None => "object" end))]
  |}.

(** The success response of [/login]. *)
Definition logged_in (token : string) (uid : Z) : Http.response :=
  {| Http.status := 200;
     Http.body := Http.Json [("success", Http.JBool true);
                             ("token", Http.JString token);
                             ("use_id", Http.JNumber uid)] |}.

(** [InvalidInput] at the boundary of [/updateProfile]. *)
Definition invalid_email : Http.response :=
  {| Http.status := 400; Http.body := Http.message "Invalid email format" |}.

(** The calls of the profile update. *)
Definition profile_select (req : Http.request) (uid : Z) : call :=
  DbQuery "SELECT id FROM users WHERE (username = ? OR email = ?) AND id != ?"
    [PText (Db.bind (Http.field req "username"));
     PText (Db.bind (Http.field req "email")); PInt uid].

Definition profile_update (req : Http.request) (uid : Z) : call :=
  DbQuery "UPDATE users SET first_name = ?, last_name = ?, username = ?, email = ? WHERE id = ?"
    [PText (Db.bind (Http.field req "firstName"));
     PText (Db.bind (Http.field req "lastName"));
     PText (Db.bind (Http.field req "username"));
     PText (Db.bind (Http.field req "email")); PInt uid].

(** What the gate answers when it finds no token. *)
Definition access_denied : Http.response :=
  {| Http.status := 403; Http.body := Http.message "Access Denied" |}.

(** Closed records of [d] are found unchanged, at their place, in [d']. *)
Definition closed_kept (d d' : Db.database) : Prop :=
  forall i r, nth_error (Db.user_log d) i = Some r -> is_closed r ->
    nth_error (Db.user_log d') i = Some r.

(** A handler piece under which [R] relates the database before and
    after, whatever the outcome. *)
Definition keeps (R : Db.database -> Db.database -> Prop) {A : Type}
    (m : action A) : Prop :=
  forall w, R (db w) (db (snd (m w))).

(** Stand-ins for bcrypt and jsonwebtoken, to run the handlers on concrete
    requests: the hash is the password after the salt, the token of user 1
    is [t.1], that of any other user [t.2], and a token never expires. *)
Module Sample.

Definition collate : string -> string -> bool := String.eqb.

Definition hash (p : string) (rounds : Z) (salt : string) : string :=
  salt ++ p.

Definition compare (p h : string) : bool :=
  String.eqb h ("$" ++ p).

Definition sign (payload : identity) (time : Z) : string :=
  if ident_id payload =? 1 then "t.1" else "t.2".

Definition verify (token : string) (time : Z) : option identity :=
  if String.eqb token "t.1"
  then Some {| ident_id := 1; ident_username := Some "alee" |}
  else if String.eqb token "t.2"
  then Some {| ident_id := 2; ident_username := Some "bob" |}
  else None.

Definition at_time (t : Z) : env := {| now := t; salt := "$" |}.

Definition empty : Db.database :=
  {| Db.users := []; Db.users_auto_increment := 1; Db.user_log := [];
     Db.disease_solutions := []; Db.disease_products := [] |}.

Definition post (r : Http.route) (auth : option string)
    (o : list (string * JS.value)) : Http.request :=
  {| Http.target := r; Http.authorization := auth; Http.properties := o |}.

Definition serve (t : Z) (req : Http.request) (d : Db.database) :=
  serve collate hash compare sign verify (at_time t) req d.

Definition signup_ann : Http.request :=
  post Http.PostSignup None
    [("firstName", JS.Str "Ann"); ("lastName", JS.Str "Lee");
     ("username", JS.Str "alee"); ("email", JS.Str "ann@x.com");
     ("password", JS.Str "pw123"); ("confirmPassword", JS.Str "pw123")].

Definition login_ann : Http.request :=
  post Http.PostLogin None
    [("username", JS.Str "alee"); ("password", JS.Str "pw123")].

Definition logout_ann : Http.request :=
  post Http.PostLogout (Some "Bearer t.1") [].

Definition ann : Db.user_row :=
  {| Db.id := 1; Db.first_name := Some "Ann"; Db.last_name := Some "Lee";
     Db.username := Some "alee"; Db.email := Some "ann@x.com";
     Db.password := Some "$pw123" |}.

Definition ann_identity : identity :=
  {| ident_id := 1; ident_username := Some "alee" |}.

Definition session (login : Z) (closed : option (Z * Z)) : Db.log_row :=
  {| Db.user_id := 1; Db.login_time := login;
     Db.logout_time := option_map fst closed;
     Db.session_duration := option_map snd closed |}.

(** Ann signed up; her session log is [log]. *)
Definition with_log (log : list Db.log_row) : Db.database :=
  {| Db.users := [ann]; Db.users_auto_increment := 2; Db.user_log := log;
     Db.disease_solutions := []; Db.disease_products := [] |}.

(** The database after each of a list of requests, served at the given
    times, with the responses. *)
Fixpoint run (rs : list (Z * Http.request)) (d : Db.database)
  : list (option Http.response) * Db.database :=
  match rs with
  | [] => ([], d)
  | (t, req) :: rest =>
      let '(r, d', _) := serve t req d in
      let '(out, d'') := run rest d' in
      (r :: out, d'')
  end.

End Sample.

(* ------------------------------------------------------------------ *)
(** ** Further responses and predicates *)

(** The success response of [/logout]. *)
Definition logged_out : Http.response :=
  {| Http.status := 200;
     Http.body := Http.Json [("success", Http.JBool true)] |}.

(** The OPEN record the login handler inserts. *)
Definition new_session (uid time : Z) : Db.log_row :=
  {| Db.user_id := uid; Db.login_time := time;
     Db.logout_time := None; Db.session_duration := None |}.

(** The payload the login handler signs for a row of [users]. *)
Definition payload_of (user : Db.user_row) : identity :=
  {| ident_id := Db.id user; ident_username := Db.username user |}.

(** The login handler reaches [jwt.sign]: its lookup selects a row, and
    [bcrypt.compare] resolves to [true] on the password of the request
    and the hash of the first row selected. *)
Definition credentials_accepted (collate : string -> string -> bool)
    (bcrypt_compare : string -> string -> bool)
    (d : Db.database) (req : Http.request) (user : Db.user_row) : Prop :=
  exists rest p h,
    Db.select_users_by_username collate d
      (Db.bind (Http.field req "username")) = user :: rest /\
    Http.field req "password" = JS.Str p /\
    Db.password user = Some h /\
    bcrypt_compare p h = true.

(** What identifies a user and what authenticates them: the id and the
    stored hash. *)
Definition user_key (u : Db.user_row) : Z * Db.text :=
  (Db.id u, Db.password u).

(** What a session record is created with. *)
Definition session_key (r : Db.log_row) : Z * Z :=
  (Db.user_id r, Db.login_time r).

(** [d'] has the users and the session records of [d], each at its place
    with its key, possibly followed by new ones, and the same reference
    tables. *)
Definition grows (d d' : Db.database) : Prop :=
  (exists more,
     map user_key (Db.users d') = (map user_key (Db.users d) ++ more)%list) /\
  (exists more,
     map session_key (Db.user_log d')
     = (map session_key (Db.user_log d) ++ more)%list) /\
  Db.disease_solutions d' = Db.disease_solutions d /\
  Db.disease_products d' = Db.disease_products d /\
  Db.users_auto_increment d <= Db.users_auto_increment d'.

(** The routes that only read. *)
Definition reading_routes : list Http.route :=
  [Http.GetUsername; Http.GetProfile; Http.GetDiseaseSolutions;
   Http.GetDiseases; Http.GetMedicine].

(** Two rows differ in a text column: the column comparison does not find
    the values equal (a [NULL] is equal to nothing). *)
Definition differ (collate : string -> string -> bool)
    (column : Db.user_row -> Db.text) (u v : Db.user_row) : Prop :=
  Db.text_eq collate (column u) (column v) = false.

(** The users have distinct ids, all below the next auto-increment value,
    distinct usernames and distinct emails. *)
Definition users_distinct (collate : string -> string -> bool)
    (d : Db.database) : Prop :=
  NoDup (map Db.id (Db.users d)) /\
  Forall (fun u => Db.id u < Db.users_auto_increment d) (Db.users d) /\
  ForallOrdPairs (differ collate Db.username) (Db.users d) /\
  ForallOrdPairs (differ collate Db.email) (Db.users d).

(** [I] holds after if it held before. *)
Definition preserved (I : Db.database -> Prop) (d d' : Db.database) : Prop :=
  I d -> I d'.

(** No character of [s] is a space character. *)
Fixpoint all_nonspace (s : string) : bool :=
  match s with
  | EmptyString => true
  | String c rest => negb (Regex.is_space c) && all_nonspace rest
  end.

(** A run of one or more characters that are not spaces: a word of
    [\S+]. *)
Definition run (s : string) : Prop := s <> "" /\ all_nonspace s = true.

(** [p] is a run, an [@], a run, a dot and a run. *)
Definition email_shaped (p : string) : Prop :=
  exists a m b, run a /\ run m /\ run b /\ p = a ++ "@" ++ m ++ "." ++ b.

(** Somewhere in [s] there is a piece that is [email_shaped]. *)
Definition holds_email (s : string) : Prop :=
  exists front p back, s = front ++ p ++ back /\ email_shaped p.





(** The statuses a route answers with, as long as the database executes
    the statements. *)
Definition statuses (r : Http.route) : list Z :=
  match r with
  | Http.PostSignup => [201; 400]
  | Http.PostLogin => [200; 400; 500]
  | Http.PostLogout => [200; 400; 403]
  | Http.GetUsername | Http.GetProfile => [200; 403; 404]
  | Http.PutUpdateProfile => [200; 400; 403; 404]
  | Http.GetDiseaseSolutions | Http.GetDiseases | Http.GetMedicine => [200]
  end.

(** A handler piece that always ends by sending a response whose status
    is in [codes]. *)
Definition answers (codes : list Z) (m : action unit) : Prop :=
  forall w, exists r w', m w = (Sent r, w') /\ In (Http.status r) codes.



(* ------------------------------------------------------------------ *)
(** ** The session log *)

Module LogFacts.

Lemma latest_none (rows : list Db.log_row) :
  Db.latest rows = [] -> rows = [].
Proof.
  destruct rows as [|r rest]; [reflexivity|].
  simpl. destruct (Db.latest rest) as [|m ms].
  - discriminate.
  - destruct (Db.login_time r <? Db.login_time m); discriminate.
Qed.

(** The row [latest] returns is one of the rows, it is the only one
    returned, and none has a later login time. *)
Lemma latest_greatest (rows : list Db.log_row) :
  forall m ms, Db.latest rows = m :: ms ->
    In m rows /\ ms = [] /\
    forall r, In r rows -> Db.login_time r <= Db.login_time m.
Proof.
  induction rows as [|r rest IH]; intros m ms; simpl; [discriminate|].
  destruct (Db.latest rest) as [|m' ms'] eqn:E.
  - intros [= <- <-]. apply latest_none in E. subst rest.
    repeat split; auto.
    intros r' [<-|[]]. lia.
  - destruct (IH m' ms' eq_refl) as (Hin & _ & Hmax).
    destruct (Z.ltb_spec (Db.login_time r) (Db.login_time m')) as [Hlt|Hge];
      intros [= <- <-]; repeat split; auto.
    + intros r' [<-|Hr']; [lia | auto].
    + intros r' [<-|Hr']; [lia|]. specialize (Hmax _ Hr'). lia.
Qed.

Lemma open_for_spec (uid : Z) (r : Db.log_row) :
  Db.open_for uid r = true <-> Db.user_id r = uid /\ is_open r.
Proof.
  unfold Db.open_for, is_open, Db.is_null.
  rewrite andb_true_iff, Z.eqb_eq.
  destruct (Db.logout_time r); intuition congruence.
Qed.

Lemma select_latest_none (d : Db.database) (uid : Z) :
  Db.select_latest_open_log d uid = [] <-> no_open_record d uid.
Proof.
  unfold Db.select_latest_open_log, no_open_record. split.
  - intros E r Hr Hu Ho. apply latest_none in E.
    assert (O : Db.open_for uid r = true)
      by (apply open_for_spec; split; [exact Hu | exact Ho]).
    assert (Hf : In r (filter (Db.open_for uid) (Db.user_log d)))
      by (apply filter_In; auto).
    rewrite E in Hf. contradiction.
  - intros H.
    destruct (filter (Db.open_for uid) (Db.user_log d)) as [|r rest] eqn:E;
      [reflexivity|].
    assert (Hr : In r (filter (Db.open_for uid) (Db.user_log d)))
      by (rewrite E; left; reflexivity).
    apply filter_In in Hr. destruct Hr as [Hin O].
    apply open_for_spec in O. destruct O as [Hu Ho].
    exfalso. exact (H r Hin Hu Ho).
Qed.

(** The selected row is an OPEN record of the user, and no OPEN record of
    the user was created later. *)
Lemma select_latest_some (d : Db.database) (uid : Z) (m : Db.log_row)
    (ms : list Db.log_row) :
  Db.select_latest_open_log d uid = m :: ms ->
  In m (Db.user_log d) /\ Db.open_for uid m = true /\ ms = [] /\
  forall r, In r (Db.user_log d) -> Db.open_for uid r = true ->
    Db.login_time r <= Db.login_time m.
Proof.
  unfold Db.select_latest_open_log. intros E.
  destruct (latest_greatest _ _ _ E) as (Hin & Hms & Hmax).
  apply filter_In in Hin. destruct Hin as [Hin O].
  repeat split; auto.
  intros r Hr Or. apply Hmax. apply filter_In. auto.
Qed.

Lemma close_row_open (time duration uid : Z) (r : Db.log_row) :
  Db.open_for uid r = true ->
  Db.close_row time duration uid r = closed_at time duration r.
Proof. unfold Db.close_row. intros ->. reflexivity. Qed.

Lemma close_row_other (time duration uid : Z) (r : Db.log_row) :
  Db.open_for uid r = false ->
  Db.close_row time duration uid r = r.
Proof. unfold Db.close_row. intros ->. reflexivity. Qed.

Lemma close_row_not_open (time duration uid uid' : Z) (r : Db.log_row) :
  Db.open_for uid' (Db.close_row time duration uid r) = true ->
  uid' <> uid.
Proof.
  unfold Db.close_row. destruct (Db.open_for uid r) eqn:O.
  - unfold Db.open_for. simpl. rewrite andb_false_r. discriminate.
  - intros O' ->. congruence.
Qed.

(** After the [UPDATE] of the logout handler the user has no OPEN
    record. *)
Lemma update_leaves_none_open (d : Db.database) (time duration uid : Z) :
  no_open_record (Db.update_open_logs d time duration uid) uid.
Proof.
  intros r. simpl. rewrite in_map_iff. intros (r0 & <- & _) Hu Ho.
  assert (O : Db.open_for uid (Db.close_row time duration uid r0) = true)
    by (apply open_for_spec; split; [exact Hu | exact Ho]).
  apply close_row_not_open in O. congruence.
Qed.

End LogFacts.

(** The logout handler, run: one [SELECT]; when it finds a row, one
    [UPDATE] with the duration taken from that row. *)
Lemma respond_logout (e : env) (user : identity) (d : Db.database) :
  respond (logout e user) d =
  match Db.select_latest_open_log d (ident_id user) with
  | [] => (Some no_active_session, d, [logout_select (ident_id user)])
  | session :: _ =>
      let duration := sessionDuration (now e) (Db.login_time session) in
      (Some {| Http.status := 200;
               Http.body := Http.Json [("success", Http.JBool true)] |},
       Db.update_open_logs d (now e) duration (ident_id user),
       [logout_select (ident_id user);
        logout_update (now e) duration (ident_id user)])
  end.
Proof.
  unfold respond, logout, try_catch, bind, query_latest_open_log,
    query_update_open_logs, record, read, write, send. simpl.
  destruct (Db.select_latest_open_log d (ident_id user)); reflexivity.
Qed.

Lemma after_logout (e : env) (user : identity) (d : Db.database) :
  after (logout e user) d =
  match Db.select_latest_open_log d (ident_id user) with
  | [] => d
  | session :: _ =>
      Db.update_open_logs d (now e)
        (sessionDuration (now e) (Db.login_time session)) (ident_id user)
  end.
Proof.
  unfold after. rewrite respond_logout.
  destruct (Db.select_latest_open_log d (ident_id user)); reflexivity.
Qed.

Lemma reply_logout (e : env) (user : identity) (d : Db.database) :
  reply (logout e user) d =
  match Db.select_latest_open_log d (ident_id user) with
  | [] => Some no_active_session
  | _ :: _ =>
      Some {| Http.status := 200;
              Http.body := Http.Json [("success", Http.JBool true)] |}
  end.
Proof.
  unfold reply. rewrite respond_logout.
  destruct (Db.select_latest_open_log d (ident_id user)); reflexivity.
Qed.

(** Whatever a logout finds, the user has no OPEN record after it. *)
Lemma logout_leaves_none_open (e : env) (user : identity) (d : Db.database) :
  no_open_record (after (logout e user) d) (ident_id user).
Proof.
  rewrite after_logout.
  destruct (Db.select_latest_open_log d (ident_id user)) eqn:E.
  - apply LogFacts.select_latest_none. exact E.
  - apply LogFacts.update_leaves_none_open.
Qed.

(** A successful logout closes every OPEN record of the user, each with
    the duration computed for the latest one. *)
Lemma logout_closes_all_open (e : env) (user : identity) (d : Db.database)
    (session : Db.log_row) (rest : list Db.log_row) :
  Db.select_latest_open_log d (ident_id user) = session :: rest ->
  forall i r, nth_error (Db.user_log d) i = Some r ->
    Db.open_for (ident_id user) r = true ->
    nth_error (Db.user_log (after (logout e user) d)) i =
    Some (closed_at (now e)
            (sessionDuration (now e) (Db.login_time session)) r).
Proof.
  intros E i r Hi O. rewrite after_logout, E. simpl.
  rewrite nth_error_map, Hi. simpl.
  rewrite LogFacts.close_row_open by exact O. reflexivity.
Qed.

(** C1 (the code departs from it): signup, two logins at 1000 ms and
    5000 ms and one logout at 9500 ms.  Before the logout the user has two
    OPEN records; the logout closes both, the older one too, and writes on
    both the duration of the newer one, 4 seconds. *)
Theorem logout_closes_older_record_too :
  let before :=
    snd (Sample.run [(0, Sample.signup_ann); (1000, Sample.login_ann);
                     (5000, Sample.login_ann)] Sample.empty) in
  let served := Sample.serve 9500 Sample.logout_ann before in
  Db.user_log before =
    [ {| Db.user_id := 1; Db.login_time := 1000;
         Db.logout_time := None; Db.session_duration := None |};
      {| Db.user_id := 1; Db.login_time := 5000;
         Db.logout_time := None; Db.session_duration := None |} ] /\
  fst (fst served) =
    Some {| Http.status := 200;
            Http.body := Http.Json [("success", Http.JBool true)] |} /\
  Db.user_log (snd (fst served)) =
    [ {| Db.user_id := 1; Db.login_time := 1000;
         Db.logout_time := Some 9500; Db.session_duration := Some 4 |};
      {| Db.user_id := 1; Db.login_time := 5000;
         Db.logout_time := Some 9500; Db.session_duration := Some 4 |} ].
Proof. vm_compute. repeat split. Qed.

(** C2: when the logout finds an OPEN record, the record it selected is
    an OPEN record of the user with the latest login time, that record is
    closed at the logout time with duration
    [floor ((logout time - login time) / 1000)], the whole seconds elapsed,
    and the duration is not negative when the login time is not after the
    logout time. *)
Theorem logout_duration_is_whole_seconds
    (e : env) (user : identity) (d : Db.database)
    (session : Db.log_row) (rest : list Db.log_row) :
  Db.select_latest_open_log d (ident_id user) = session :: rest ->
  let elapsed := now e - Db.login_time session in
  let duration := elapsed / 1000 in
  (In session (Db.user_log d) /\
   Db.user_id session = ident_id user /\ is_open session /\
   forall r, In r (Db.user_log d) ->
     Db.user_id r = ident_id user -> is_open r ->
     Db.login_time r <= Db.login_time session) /\
  (forall i, nth_error (Db.user_log d) i = Some session ->
     nth_error (Db.user_log (after (logout e user) d)) i =
     Some (closed_at (now e) duration session)) /\
  1000 * duration <= elapsed < 1000 * duration + 1000 /\
  (Db.login_time session <= now e -> 0 <= duration).
Proof.
  intros E elapsed duration.
  destruct (LogFacts.select_latest_some _ _ _ _ E) as (Hin & O & _ & Hmax).
  pose proof (proj1 (LogFacts.open_for_spec _ _) O) as [Hu Ho].
  split; [|split; [|split]].
  - repeat split; auto.
    intros r Hr Hru Hro. apply Hmax; auto.
    apply LogFacts.open_for_spec. auto.
  - intros i Hi.
    apply (logout_closes_all_open e user d session rest E i session Hi O).
  - subst duration.
    pose proof (Z.div_mod elapsed 1000 ltac:(lia)) as Hdm.
    pose proof (Z.mod_pos_bound elapsed 1000 ltac:(lia)) as Hb.
    lia.
  - intros Hle. subst duration elapsed.
    apply Z.div_pos; lia.
Qed.

(** C3: the logout answers 400 "No active session found" exactly when the
    user has no OPEN record; it then leaves the database as it was and
    sends no [UPDATE]; and a logout that follows a logout of the same user
    is answered that way. *)
Theorem logout_no_active_session_iff
    (e : env) (user : identity) (d : Db.database) :
  (reply (logout e user) d = Some no_active_session <->
   no_open_record d (ident_id user)) /\
  (reply (logout e user) d = Some no_active_session ->
   after (logout e user) d = d /\
   made (logout e user) d = [logout_select (ident_id user)]) /\
  (forall e' : env,
     reply (logout e' user) (after (logout e user) d) =
     Some no_active_session).
Proof.
  assert (Hiff : reply (logout e user) d = Some no_active_session <->
                 Db.select_latest_open_log d (ident_id user) = []).
  { rewrite reply_logout.
    destruct (Db.select_latest_open_log d (ident_id user));
      split; intros H; try reflexivity; discriminate. }
  split; [|split].
  - rewrite Hiff. apply LogFacts.select_latest_none.
  - intros H. apply Hiff in H.
    unfold after, made. rewrite respond_logout, H. split; reflexivity.
  - intros e'. rewrite reply_logout.
    pose proof (logout_leaves_none_open e user d) as H.
    apply LogFacts.select_latest_none in H. rewrite H. reflexivity.
Qed.

Lemma logout_no_active_session_iff_witness :
  reply (logout (Sample.at_time 9500) Sample.ann_identity)
    (Sample.with_log [Sample.session 1000 (Some (3000, 2));
                      Sample.session 5000 None])
  <> Some no_active_session /\
  reply (logout (Sample.at_time 9500) Sample.ann_identity)
    (Sample.with_log [Sample.session 1000 (Some (3000, 2));
                      {| Db.user_id := 2; Db.login_time := 5000;
                         Db.logout_time := None;
                         Db.session_duration := None |}])
  = Some no_active_session.
Proof.
  split.
  - intros H.
    apply (proj1 (logout_no_active_session_iff (Sample.at_time 9500)
                    Sample.ann_identity
                    (Sample.with_log [Sample.session 1000 (Some (3000, 2));
                                      Sample.session 5000 None]))) in H.
    apply (H (Sample.session 5000 None)).
    + right. left. reflexivity.
    + reflexivity.
    + reflexivity.
  - apply (proj1 (logout_no_active_session_iff (Sample.at_time 9500)
                    Sample.ann_identity
                    (Sample.with_log
                       [Sample.session 1000 (Some (3000, 2));
                        {| Db.user_id := 2; Db.login_time := 5000;
                           Db.logout_time := None;
                           Db.session_duration := None |}]))).
    intros r [<-|[<-|[]]] Hu.
    + unfold is_closed. simpl. discriminate.
    + simpl in Hu. discriminate Hu.
Defined.

Lemma logout_duration_is_whole_seconds_witness :
  Db.select_latest_open_log
    (Sample.with_log [Sample.session 1000 None; Sample.session 5000 None]) 1
  = [Sample.session 5000 None] /\
  nth_error
    (Db.user_log
       (after (logout (Sample.at_time 9500) Sample.ann_identity)
          (Sample.with_log
             [Sample.session 1000 None; Sample.session 5000 None]))) 1
  = Some (Sample.session 5000 (Some (9500, 4))).
Proof.
  assert (H : Db.select_latest_open_log
                (Sample.with_log
                   [Sample.session 1000 None; Sample.session 5000 None])
                (ident_id Sample.ann_identity)
              = [Sample.session 5000 None]) by reflexivity.
  split; [exact H|].
  destruct (logout_duration_is_whole_seconds (Sample.at_time 9500)
              Sample.ann_identity _ _ _ H) as (_ & Hclosed & _).
  apply (Hclosed 1%nat). reflexivity.
Defined.

(* ------------------------------------------------------------------ *)
(** ** What a handler may do to the database *)

Section Keeps.

Variable R : Db.database -> Db.database -> Prop.
Hypothesis R_refl : forall d, R d d.
Hypothesis R_trans : forall d1 d2 d3, R d1 d2 -> R d2 d3 -> R d1 d3.

Lemma keeps_ret {A : Type} (a : A) : keeps R (ret a).
Proof. intros w. apply R_refl. Qed.

Lemma keeps_send {A : Type} (code : Z) (p : Http.payload) :
  keeps R (@send A code p).
Proof. intros w. apply R_refl. Qed.

Lemma keeps_throw {A : Type} (err : string) : keeps R (@throw A err).
Proof. intros w. apply R_refl. Qed.

Lemma keeps_record (c : call) : keeps R (record c).
Proof. intros w. apply R_refl. Qed.

Lemma keeps_read {A : Type} (f : Db.database -> A) : keeps R (read f).
Proof. intros w. apply R_refl. Qed.

Lemma keeps_write (f : Db.database -> Db.database) :
  (forall d, R d (f d)) -> keeps R (write f).
Proof. intros H w. apply H. Qed.

Lemma keeps_bind {A B : Type} (m : action A) (k : A -> action B) :
  keeps R m -> (forall a, keeps R (k a)) -> keeps R (bind m k).
Proof.
  intros Hm Hk w. unfold bind.
  specialize (Hm w). destruct (m w) as [[a|r|err] w']; simpl in *; auto.
  apply R_trans with (db w'); [exact Hm | apply Hk].
Qed.

Lemma keeps_try_catch {A : Type} (m : action A) (h : string -> action A) :
  keeps R m -> (forall err, keeps R (h err)) -> keeps R (try_catch m h).
Proof.
  intros Hm Hh w. unfold try_catch.
  specialize (Hm w). destruct (m w) as [[a|r|err] w']; simpl in *; auto.
  apply R_trans with (db w'); [exact Hm | apply Hh].
Qed.

Lemma keeps_respond (m : action unit) (d : Db.database) :
  keeps R m -> R d (after m d).
Proof.
  intros Hm. unfold after, respond.
  specialize (Hm {| db := d; calls := [] |}).
  destruct (m {| db := d; calls := [] |}) as [[a|r|err] w']; exact Hm.
Qed.

End Keeps.

Lemma closed_kept_refl (d : Db.database) : closed_kept d d.
Proof. intros i r H _. exact H. Qed.

Lemma closed_kept_trans (d1 d2 d3 : Db.database) :
  closed_kept d1 d2 -> closed_kept d2 d3 -> closed_kept d1 d3.
Proof. intros H12 H23 i r H C. apply H23; auto. Qed.

Lemma closed_kept_same_log (d d' : Db.database) :
  Db.user_log d' = Db.user_log d -> closed_kept d d'.
Proof. intros E i r H _. rewrite E. exact H. Qed.

(** The [INSERT] of the login handler adds a row after the others. *)
Lemma closed_kept_insert_log (d : Db.database) (uid time : Z) :
  closed_kept d (Db.insert_log d uid time).
Proof.
  intros i r H _. simpl.
  rewrite nth_error_app1; [exact H|].
  apply nth_error_Some. congruence.
Qed.

(** The [UPDATE] of the logout handler selects rows whose [logout_time] is
    [NULL]. *)
Lemma closed_kept_update_open_logs (d : Db.database) (time duration uid : Z) :
  closed_kept d (Db.update_open_logs d time duration uid).
Proof.
  intros i r H C. simpl. rewrite nth_error_map, H. simpl.
  rewrite LogFacts.close_row_other; [reflexivity|].
  unfold Db.open_for, Db.is_null. unfold is_closed in C.
  destruct (Db.logout_time r); [apply andb_false_r | congruence].
Qed.

Ltac keeps_closed :=
  repeat first
    [ apply (keeps_bind _ closed_kept_trans); [|intros ?]
    | apply (keeps_try_catch _ closed_kept_trans); [|intros ?]
    | apply (keeps_send _ closed_kept_refl)
    | apply (keeps_ret _ closed_kept_refl)
    | apply (keeps_throw _ closed_kept_refl)
    | apply (keeps_record _ closed_kept_refl)
    | apply (keeps_read _ closed_kept_refl)
    | apply keeps_write; intros ?
    | apply closed_kept_insert_log
    | apply closed_kept_update_open_logs
    | apply closed_kept_same_log; reflexivity
    | match goal with
      | |- keeps _ (if ?b then _ else _) => destruct b
      | |- keeps _ (match ?x with _ => _ end) => destruct x
      end ].

Section HandlersKeepClosed.

Variable collate : string -> string -> bool.
Variable bcrypt_hash : string -> Z -> string -> string.
Variable bcrypt_compare : string -> string -> bool.
Variable jwt_sign : identity -> Z -> string.
Variable jwt_verify : string -> Z -> option identity.

Lemma signup_keeps_closed (e : env) (req : Http.request) :
  keeps closed_kept (signup collate bcrypt_hash e req).
Proof.
  unfold signup, internal_error, query_users_by_username_or_email,
    bcrypt_hash_call, query_insert_user.
  keeps_closed.
Qed.

Lemma login_keeps_closed (e : env) (req : Http.request) :
  keeps closed_kept (login collate bcrypt_compare jwt_sign e req).
Proof.
  unfold login, internal_error, query_users_by_username,
    bcrypt_compare_call, jwt_sign_call, query_insert_log.
  keeps_closed.
Qed.

Lemma logout_keeps_closed (e : env) (user : identity) :
  keeps closed_kept (logout e user).
Proof.
  unfold logout, internal_error, query_latest_open_log,
    query_update_open_logs.
  keeps_closed.
Qed.

Lemma getUsername_keeps_closed (user : identity) :
  keeps closed_kept (getUsername user).
Proof.
  unfold getUsername, internal_error, query_users_by_id. keeps_closed.
Qed.

Lemma getProfile_keeps_closed (user : identity) :
  keeps closed_kept (getProfile user).
Proof.
  unfold getProfile, internal_error, query_users_by_id. keeps_closed.
Qed.

Lemma updateProfile_keeps_closed (req : Http.request) (user : identity) :
  keeps closed_kept (updateProfile collate req user).
Proof.
  unfold updateProfile, query_other_users, query_update_user.
  keeps_closed.
Qed.

Lemma gate_keeps_closed (e : env) (req : Http.request)
    (next : identity -> action unit) :
  (forall user, keeps closed_kept (next user)) ->
  keeps closed_kept (authenticateToken jwt_verify e req next).
Proof.
  intros Hnext. unfold authenticateToken, jwt_verify_call.
  keeps_closed. apply Hnext.
Qed.

Lemma app_keeps_closed (e : env) (req : Http.request) :
  keeps closed_kept
    (app collate bcrypt_hash bcrypt_compare jwt_sign jwt_verify e req).
Proof.
  unfold app. destruct (Http.target req).
  - apply signup_keeps_closed.
  - apply login_keeps_closed.
  - apply gate_keeps_closed. intros user. apply logout_keeps_closed.
  - apply gate_keeps_closed. intros user. apply getUsername_keeps_closed.
  - apply gate_keeps_closed. intros user. apply getProfile_keeps_closed.
  - apply gate_keeps_closed. intros user. apply updateProfile_keeps_closed.
  - unfold getDiseaseSolutions, query_table. keeps_closed.
  - unfold getDiseases, query_table. keeps_closed.
  - unfold getMedicine, query_table. keeps_closed.
Qed.

End HandlersKeepClosed.

(** C8: whatever request is served, a session record that is CLOSED (its
    logout time is set) is found afterwards at its place with the same
    fields: no route updates it, reopens it or changes its duration. *)
Theorem closed_record_never_modified
    (collate : string -> string -> bool)
    (bcrypt_hash : string -> Z -> string -> string)
    (bcrypt_compare : string -> string -> bool)
    (jwt_sign : identity -> Z -> string)
    (jwt_verify : string -> Z -> option identity)
    (e : env) (req : Http.request) (d : Db.database)
    (i : nat) (r : Db.log_row) :
  nth_error (Db.user_log d) i = Some r ->
  is_closed r ->
  nth_error
    (Db.user_log
       (snd (fst (serve collate bcrypt_hash bcrypt_compare jwt_sign
                    jwt_verify e req d)))) i
  = Some r.
Proof.
  intros H C.
  pose proof (keeps_respond closed_kept _ d
                (app_keeps_closed collate bcrypt_hash bcrypt_compare
                   jwt_sign jwt_verify e req)) as K.
  exact (K i r H C).
Qed.

Lemma closed_record_never_modified_witness :
  nth_error
    (Db.user_log
       (Sample.with_log
          [Sample.session 1000 (Some (3000, 2)); Sample.session 5000 None]))
    0
  = Some (Sample.session 1000 (Some (3000, 2))) /\
  is_closed (Sample.session 1000 (Some (3000, 2))) /\
  nth_error
    (Db.user_log
       (snd (fst (Sample.serve 9500 Sample.logout_ann
                    (Sample.with_log
                       [Sample.session 1000 (Some (3000, 2));
                        Sample.session 5000 None]))))) 0
  = Some (Sample.session 1000 (Some (3000, 2))).
Proof.
  assert (H : nth_error
                (Db.user_log
                   (Sample.with_log
                      [Sample.session 1000 (Some (3000, 2));
                       Sample.session 5000 None])) 0
              = Some (Sample.session 1000 (Some (3000, 2))))
    by reflexivity.
  assert (C : is_closed (Sample.session 1000 (Some (3000, 2))))
    by (unfold is_closed; simpl; discriminate).
  split; [exact H|]. split; [exact C|].
  exact (closed_record_never_modified Sample.collate Sample.hash
           Sample.compare Sample.sign Sample.verify (Sample.at_time 9500)
           Sample.logout_ann _ 0%nat _ H C).
Defined.

(* ------------------------------------------------------------------ *)
(** ** Signup *)

Module ValueFacts.

Lemma truthy_false_iff (v : JS.value) : JS.truthy v = false <-> blank v.
Proof.
  unfold blank. destruct v as [| |s]; simpl.
  - intuition.
  - intuition.
  - rewrite negb_false_iff, String.eqb_eq.
    split; [intros ->; auto | intros [H|[H|H]]; congruence].
Qed.

Lemma strict_eq_iff (a b : JS.value) : JS.strict_eq a b = true <-> a = b.
Proof.
  destruct a as [| |s], b as [| |t]; simpl;
    try (split; [discriminate | congruence]);
    try (split; reflexivity).
  rewrite String.eqb_eq. split; congruence.
Qed.

Lemma some_field_falsy_iff (req : Http.request) :
  some_field_falsy req = true <->
  exists k, In k required_fields /\ blank (Http.field req k).
Proof.
  unfold some_field_falsy, required_fields.
  rewrite !orb_true_iff, !negb_true_iff, !truthy_false_iff. simpl. split.
  - intros [[[[[H|H]|H]|H]|H]|H]; eexists; (split; [|exact H]); tauto.
  - intros (k & Hk & B).
    repeat (destruct Hk as [<-|Hk]; [tauto|]). contradiction.
Qed.

End ValueFacts.

Lemma respond_signup (collate : string -> string -> bool)
    (bcrypt_hash : string -> Z -> string -> string)
    (e : env) (req : Http.request) (d : Db.database) :
  respond (signup collate bcrypt_hash e req) d =
  if some_field_falsy req then
    (Some {| Http.status := 400;
             Http.body := Http.message "All fields are required" |}, d, [])
  else if negb (JS.strict_eq (Http.field req "password")
                  (Http.field req "confirmPassword")) then
    (Some {| Http.status := 400;
             Http.body := Http.message "Passwords do not match" |}, d, [])
  else
    match Db.select_users_by_username_or_email collate d
            (Db.bind (Http.field req "username"))
            (Db.bind (Http.field req "email")) with
    | _ :: _ => (Some conflict, d, [signup_select req])
    | [] =>
        match Http.field req "password" with
        | JS.Str p =>
            let hashed := bcrypt_hash p 10 (salt e) in
            (Some created,
             Db.with_users d (Db.users d ++ [new_user d req hashed])
               (Db.users_auto_increment d + 1),
             [signup_select req; BcryptHash (JS.Str p) 10;
              signup_insert req hashed])
        | other =>
            (Some {| Http.status := 500;
                     Http.body :=
                       Http.Json
                         [("error",
                           Http.JString ("Illegal arguments: "
                                         ++ JS.typeof other ++ ", number"))] |},
             d, [signup_select req; BcryptHash other 10])
        end
    end.
Proof.
  unfold signup. fold (some_field_falsy req).
  destruct (some_field_falsy req); [reflexivity|].
  destruct (negb _); [reflexivity|].
  unfold respond, try_catch, bind, query_users_by_username_or_email,
    bcrypt_hash_call, query_insert_user, internal_error, record, read, write,
    send, throw, ret. simpl.
  destruct (Db.select_users_by_username_or_email collate d _ _);
    [|reflexivity].
  simpl. destruct (Http.field req "password"); reflexivity.
Qed.

Lemma taken_iff (collate : string -> string -> bool) (d : Db.database)
    (req : Http.request) :
  taken collate d req <->
  Db.select_users_by_username_or_email collate d
    (Db.bind (Http.field req "username")) (Db.bind (Http.field req "email"))
  <> [].
Proof.
  unfold taken, Db.select_users_by_username_or_email. split.
  - intros (u & Hin & H) E.
    assert (Hf : In u (filter
                         (fun u => Db.text_eq collate (Db.username u)
                                     (Db.bind (Http.field req "username"))
                                   || Db.text_eq collate (Db.email u)
                                        (Db.bind (Http.field req "email")))
                         (Db.users d))).
    { apply filter_In. split; [exact Hin|].
      apply orb_true_iff. exact H. }
    rewrite E in Hf. contradiction.
  - intros H.
    destruct (filter _ (Db.users d)) as [|u rest] eqn:E; [congruence|].
    assert (Hf : In u (u :: rest)) by (left; reflexivity).
    rewrite <- E in Hf. apply filter_In in Hf. destruct Hf as [Hin Hb].
    exists u. split; [exact Hin|]. apply orb_true_iff. exact Hb.
Qed.

Lemma well_formed_signup_checks (req : Http.request) :
  well_formed_signup req ->
  some_field_falsy req = false /\
  JS.strict_eq (Http.field req "password") (Http.field req "confirmPassword")
  = true /\
  exists p, Http.field req "password" = JS.Str p.
Proof.
  intros [Hfields Hsame]. split; [|split].
  - destruct (some_field_falsy req) eqn:F; [|reflexivity].
    apply ValueFacts.some_field_falsy_iff in F.
    destruct F as (k & Hk & B). exfalso. exact (Hfields k Hk B).
  - apply ValueFacts.strict_eq_iff. exact Hsame.
  - assert (Hp : ~ blank (Http.field req "password")).
    { apply Hfields. unfold required_fields. simpl. tauto. }
    destruct (Http.field req "password") as [| |p].
    + exfalso. apply Hp. left. reflexivity.
    + exfalso. apply Hp. right. left. reflexivity.
    + exists p. reflexivity.
Qed.

(** C5: for a signup body that passes the two checks, the answer is the
    400 conflict exactly when some user already has the requested username
    or the requested email.  Then the only call made is the one [SELECT]
    over both columns and the database is as before.  Otherwise that
    [SELECT] is followed by the hash and the [INSERT], the new user is in
    the table, and the answer is 201 with no [token] in it. *)
Theorem signup_conflict_iff_taken
    (collate : string -> string -> bool)
    (bcrypt_hash : string -> Z -> string -> string)
    (e : env) (req : Http.request) (d : Db.database) :
  well_formed_signup req ->
  let m := signup collate bcrypt_hash e req in
  (reply m d = Some conflict <-> taken collate d req) /\
  (taken collate d req ->
   after m d = d /\ made m d = [signup_select req]) /\
  (~ taken collate d req ->
   exists p, Http.field req "password" = JS.Str p /\
     let hashed := bcrypt_hash p 10 (salt e) in
     Db.users (after m d) = (Db.users d ++ [new_user d req hashed])%list /\
     made m d = [signup_select req; BcryptHash (JS.Str p) 10;
                 signup_insert req hashed] /\
     reply m d = Some created /\
     ~ In "token" (Http.keys (Http.body created))).
Proof.
  intros W m.
  destruct (well_formed_signup_checks req W) as (F & S & p & P).
  pose proof (respond_signup collate bcrypt_hash e req d) as R.
  rewrite F, S in R. simpl in R.
  pose proof (taken_iff collate d req) as T.
  unfold reply, after, made. fold m in R.
  destruct (Db.select_users_by_username_or_email collate d _ _) as [|u us].
  - rewrite P in R. rewrite R. simpl.
    assert (N : ~ taken collate d req) by (rewrite T; congruence).
    split; [|split].
    + split; [discriminate | intros H; contradiction].
    + intros H. contradiction.
    + intros _. exists p. repeat split; auto.
      simpl. intros [H|[H|[]]]; discriminate.
  - rewrite R. simpl.
    assert (Y : taken collate d req) by (rewrite T; discriminate).
    split; [|split].
    + split; auto.
    + auto.
    + intros H. contradiction.
Qed.

Lemma signup_conflict_iff_taken_witness :
  well_formed_signup Sample.signup_ann /\
  reply (signup Sample.collate Sample.hash (Sample.at_time 0)
           Sample.signup_ann) (Sample.with_log [])
  = Some conflict /\
  Db.users
    (after (signup Sample.collate Sample.hash (Sample.at_time 0)
              Sample.signup_ann) Sample.empty)
  = [Sample.ann].
Proof.
  assert (W : well_formed_signup Sample.signup_ann).
  { split; [|reflexivity].
    intros k Hk B. unfold required_fields in Hk. simpl in Hk.
    repeat (destruct Hk as [<-|Hk];
            [destruct B as [B|[B|B]]; discriminate B|]).
    contradiction. }
  split; [exact W|]. split.
  - apply (signup_conflict_iff_taken Sample.collate Sample.hash
             (Sample.at_time 0) Sample.signup_ann (Sample.with_log []) W).
    exists Sample.ann. split; [left; reflexivity | left; reflexivity].
  - reflexivity.
Defined.

(** C6: when one of the six required fields is missing or empty, or
    [password] and [confirmPassword] differ, the signup answers 400 with
    "All fields are required" or "Passwords do not match"; it has then
    made no call at all, so nothing was hashed and nothing was asked of the
    database, which is unchanged. *)
Theorem signup_rejects_before_hashing
    (collate : string -> string -> bool)
    (bcrypt_hash : string -> Z -> string -> string)
    (e : env) (req : Http.request) (d : Db.database) :
  (exists k, In k required_fields /\ blank (Http.field req k)) \/
  Http.field req "password" <> Http.field req "confirmPassword" ->
  let m := signup collate bcrypt_hash e req in
  exists r,
    reply m d = Some r /\
    Http.status r = 400 /\
    (Http.body r = Http.message "All fields are required" \/
     Http.body r = Http.message "Passwords do not match") /\
    made m d = [] /\
    after m d = d.
Proof.
  intros H m.
  pose proof (respond_signup collate bcrypt_hash e req d) as R.
  fold m in R. unfold reply, after, made.
  destruct (some_field_falsy req) eqn:F.
  - rewrite R. eexists. simpl. repeat split. left. reflexivity.
  - destruct H as [H|H].
    + apply ValueFacts.some_field_falsy_iff in H. congruence.
    + assert (S : JS.strict_eq (Http.field req "password")
                    (Http.field req "confirmPassword") = false).
      { destruct (JS.strict_eq _ _) eqn:S; [|reflexivity].
        apply ValueFacts.strict_eq_iff in S. contradiction. }
      rewrite S in R. simpl in R. rewrite R.
      eexists. simpl. repeat split. right. reflexivity.
Qed.

Lemma signup_rejects_before_hashing_witness :
  Http.field
    (Sample.post Http.PostSignup None
       [("firstName", JS.Str "Ann"); ("lastName", JS.Str "Lee");
        ("username", JS.Str "alee"); ("email", JS.Str "ann@x.com");
        ("password", JS.Str "pw123"); ("confirmPassword", JS.Str "pw124")])
    "password"
  <> Http.field
       (Sample.post Http.PostSignup None
          [("firstName", JS.Str "Ann"); ("lastName", JS.Str "Lee");
           ("username", JS.Str "alee"); ("email", JS.Str "ann@x.com");
           ("password", JS.Str "pw123"); ("confirmPassword", JS.Str "pw124")])
       "confirmPassword" /\
  exists r,
    reply (signup Sample.collate Sample.hash (Sample.at_time 0)
             (Sample.post Http.PostSignup None
                [("firstName", JS.Str "Ann"); ("lastName", JS.Str "Lee");
                 ("username", JS.Str "alee"); ("email", JS.Str "ann@x.com");
                 ("password", JS.Str "pw123");
                 ("confirmPassword", JS.Str "pw124")])) Sample.empty
    = Some r /\ Http.status r = 400.
Proof.
  assert (H : Http.field
                (Sample.post Http.PostSignup None
                   [("firstName", JS.Str "Ann"); ("lastName", JS.Str "Lee");
                    ("username", JS.Str "alee"); ("email", JS.Str "ann@x.com");
                    ("password", JS.Str "pw123");
                    ("confirmPassword", JS.Str "pw124")]) "password"
              <> Http.field
                   (Sample.post Http.PostSignup None
                      [("firstName", JS.Str "Ann"); ("lastName", JS.Str "Lee");
                       ("username", JS.Str "alee");
                       ("email", JS.Str "ann@x.com");
                       ("password", JS.Str "pw123");
                       ("confirmPassword", JS.Str "pw124")])
                   "confirmPassword")
    by (simpl; discriminate).
  split; [exact H|].
  destruct (signup_rejects_before_hashing Sample.collate Sample.hash
              (Sample.at_time 0) _ Sample.empty (or_intror H))
    as (r & Hr & Hs & _).
  exists r. split; [exact Hr | exact Hs].
Defined.

(* ------------------------------------------------------------------ *)
(** ** Login *)

Lemma respond_login (collate : string -> string -> bool)
    (bcrypt_compare : string -> string -> bool)
    (jwt_sign : identity -> Z -> string)
    (e : env) (req : Http.request) (d : Db.database) :
  respond (login collate bcrypt_compare jwt_sign e req) d =
  match Db.select_users_by_username collate d
          (Db.bind (Http.field req "username")) with
  | [] => (Some invalid_credentials, d, [login_select req])
  | user :: _ =>
      let password := Http.field req "password" in
      let compared := BcryptCompare password (Db.password user) in
      match password, Db.password user with
      | JS.Str p, Some h =>
          if bcrypt_compare p h then
            let payload := {| ident_id := Db.id user;
                              ident_username := Db.username user |} in
            (Some (logged_in (jwt_sign payload (now e)) (Db.id user)),
             Db.insert_log d (Db.id user) (now e),
             [login_select req; compared; JwtSign payload;
              login_insert (Db.id user) (now e)])
          else (Some invalid_credentials, d, [login_select req; compared])
      | _, _ =>
          (Some (illegal_arguments password (Db.password user)), d,
           [login_select req; compared])
      end
  end.
Proof.
  unfold respond, login, try_catch, bind, query_users_by_username,
    bcrypt_compare_call, jwt_sign_call, query_insert_log, internal_error,
    record, read, write, send, throw, ret. simpl.
  destruct (Db.select_users_by_username collate d _) as [|user rest];
    [reflexivity|].
  simpl.
  destruct (Http.field req "password") as [| |p];
    destruct (Db.password user) as [h|]; try reflexivity.
  simpl. destruct (bcrypt_compare p h); reflexivity.
Qed.

(** [username = ?] with the parameter [NULL] selects no row. *)
Lemma select_by_null_username (collate : string -> string -> bool)
    (d : Db.database) :
  Db.select_users_by_username collate d None = [].
Proof.
  unfold Db.select_users_by_username.
  induction (Db.users d) as [|u us IH]; simpl; [reflexivity|].
  unfold Db.text_eq at 1. destruct (Db.username u); exact IH.
Qed.

(** C4: a login whose username selects no user, and a login whose
    username selects a user whose stored hash the password does not match,
    get the same response, 400 "Invalid username or password"; neither
    changes the database. *)
Theorem login_failures_are_alike
    (collate : string -> string -> bool)
    (bcrypt_compare : string -> string -> bool)
    (jwt_sign : identity -> Z -> string)
    (e e' : env) (req req' : Http.request) (d d' : Db.database)
    (user : Db.user_row) (rest : list Db.user_row) (p h : string) :
  Db.select_users_by_username collate d
    (Db.bind (Http.field req "username")) = [] ->
  Db.select_users_by_username collate d'
    (Db.bind (Http.field req' "username")) = user :: rest ->
  Http.field req' "password" = JS.Str p ->
  Db.password user = Some h ->
  bcrypt_compare p h = false ->
  let unknown := login collate bcrypt_compare jwt_sign e req in
  let mismatch := login collate bcrypt_compare jwt_sign e' req' in
  reply unknown d = reply mismatch d' /\
  reply unknown d = Some invalid_credentials /\
  after unknown d = d /\ after mismatch d' = d'.
Proof.
  intros Hnone Hsome Hp Hh Hcmp unknown mismatch.
  unfold reply, after, unknown, mismatch.
  rewrite !respond_login, Hnone, Hsome. simpl.
  rewrite Hp, Hh, Hcmp. simpl. repeat split.
Qed.

Lemma login_failures_are_alike_witness :
  reply (login Sample.collate Sample.compare Sample.sign (Sample.at_time 0)
           (Sample.post Http.PostLogin None
              [("username", JS.Str "ghost"); ("password", JS.Str "pw123")]))
    (Sample.with_log [])
  = reply (login Sample.collate Sample.compare Sample.sign (Sample.at_time 0)
             (Sample.post Http.PostLogin None
                [("username", JS.Str "alee"); ("password", JS.Str "wrong")]))
      (Sample.with_log []).
Proof.
  refine (proj1
            (login_failures_are_alike Sample.collate Sample.compare
               Sample.sign (Sample.at_time 0) (Sample.at_time 0)
               (Sample.post Http.PostLogin None
                  [("username", JS.Str "ghost"); ("password", JS.Str "pw123")])
               (Sample.post Http.PostLogin None
                  [("username", JS.Str "alee"); ("password", JS.Str "wrong")])
               (Sample.with_log []) (Sample.with_log [])
               Sample.ann [] "wrong" "$pw123" _ _ _ _ _));
    reflexivity.
Defined.

(** C10, as the claim has it, fails: a login with no password for a
    username that no user has is answered 400, not 500. *)
Lemma login_absent_password_unknown_user :
  ~ (forall (collate : string -> string -> bool)
            (bcrypt_compare : string -> string -> bool)
            (jwt_sign : identity -> Z -> string)
            (e : env) (req : Http.request) (d : Db.database),
        Http.field req "username" = JS.Undefined \/
        Http.field req "password" = JS.Undefined ->
        exists r,
          reply (login collate bcrypt_compare jwt_sign e req) d = Some r /\
          Http.status r = 500).
Proof.
  intros H.
  destruct (H Sample.collate Sample.compare Sample.sign (Sample.at_time 0)
              (Sample.post Http.PostLogin None [("username", JS.Str "ghost")])
              (Sample.with_log []) (or_intror eq_refl))
    as (r & Hr & Hs).
  vm_compute in Hr. injection Hr as <-. discriminate Hs.
Qed.

(** C10, amended: the login handler checks no field before it sends its
    lookup.  When the username or the password is absent, the database is
    left as it was, and the answer is 400 "Invalid username or password"
    if the lookup selects no user, as it does whenever the username is
    absent, and the 500 of bcryptjs's "Illegal arguments: undefined, ..."
    if it selects one. *)
Theorem login_with_absent_field
    (collate : string -> string -> bool)
    (bcrypt_compare : string -> string -> bool)
    (jwt_sign : identity -> Z -> string)
    (e : env) (req : Http.request) (d : Db.database) :
  Http.field req "username" = JS.Undefined \/
  Http.field req "password" = JS.Undefined ->
  let m := login collate bcrypt_compare jwt_sign e req in
  (exists later, made m d = login_select req :: later) /\
  after m d = d /\
  reply m d =
    Some match Db.select_users_by_username collate d
                 (Db.bind (Http.field req "username")) with
         | [] => invalid_credentials
         | user :: _ => illegal_arguments JS.Undefined (Db.password user)
         end /\
  (Http.field req "username" = JS.Undefined ->
   reply m d = Some invalid_credentials).
Proof.
  intros H m. unfold reply, after, made, m. rewrite respond_login.
  destruct (Db.select_users_by_username collate d _) as [|user rest] eqn:E.
  - simpl. repeat split; eauto.
  - assert (P : Http.field req "password" = JS.Undefined).
    { destruct H as [U|P]; [|exact P].
      rewrite U in E. simpl in E.
      rewrite select_by_null_username in E. discriminate. }
    rewrite P. simpl. repeat split; eauto.
    intros U. rewrite U in E. simpl in E.
    rewrite select_by_null_username in E. discriminate.
Qed.

Lemma login_with_absent_field_witness :
  Http.field (Sample.post Http.PostLogin None [("username", JS.Str "alee")])
    "password" = JS.Undefined /\
  reply (login Sample.collate Sample.compare Sample.sign (Sample.at_time 0)
           (Sample.post Http.PostLogin None [("username", JS.Str "alee")]))
    (Sample.with_log [])
  = Some (illegal_arguments JS.Undefined (Some "$pw123")).
Proof.
  split; [reflexivity|].
  destruct (login_with_absent_field Sample.collate Sample.compare Sample.sign
              (Sample.at_time 0)
              (Sample.post Http.PostLogin None [("username", JS.Str "alee")])
              (Sample.with_log []) (or_intror eq_refl))
    as (_ & _ & R & _).
  exact R.
Defined.

(* ------------------------------------------------------------------ *)
(** ** The auth gate *)

Module SplitFacts.

Lemma split_from_lacks (c : ascii) (s : string) :
  JS.lacks c s = true -> JS.split_from c s = (s, []).
Proof.
  induction s as [|d rest IH]; simpl; [reflexivity|].
  rewrite andb_true_iff, negb_true_iff. intros [Hd Hrest].
  rewrite (IH Hrest), Hd. reflexivity.
Qed.

Lemma split_lacks (c : ascii) (s : string) :
  JS.lacks c s = true -> JS.split c s = [s].
Proof.
  intros H. unfold JS.split. rewrite (split_from_lacks c s H). reflexivity.
Qed.

Lemma split_app (c : ascii) (s t : string) :
  JS.lacks c s = true ->
  JS.split c (s ++ String c t) = s :: JS.split c t.
Proof.
  unfold JS.split. induction s as [|d rest IH]; simpl.
  - intros _. destruct (JS.split_from c t) as [piece pieces].
    rewrite Ascii.eqb_refl. reflexivity.
  - rewrite andb_true_iff, negb_true_iff. intros [Hd Hrest].
    specialize (IH Hrest).
    destruct (JS.split_from c (rest ++ String c t)) as [piece pieces].
    rewrite Hd. injection IH as -> ->. reflexivity.
Qed.

End SplitFacts.

(** The token part of ["s t"] is [t], whatever the word [s] is. *)
Lemma bearer_second_part (req : Http.request) (s t : string) :
  JS.lacks " " s = true -> JS.lacks " " t = true ->
  Http.authorization req = Some (s ++ " " ++ t) ->
  bearer req = Some t.
Proof.
  intros Hs Ht H. unfold bearer. rewrite H. simpl.
  rewrite (SplitFacts.split_app " " s t Hs), (SplitFacts.split_lacks " " t Ht).
  reflexivity.
Qed.

(** A header without a space has no second part. *)
Lemma bearer_no_space (req : Http.request) (h : string) :
  JS.lacks " " h = true ->
  Http.authorization req = Some h ->
  bearer req = None.
Proof.
  intros Hh H. unfold bearer. rewrite H.
  rewrite (SplitFacts.split_lacks " " h Hh). reflexivity.
Qed.

(** C9: the gate never looks at the scheme.  If [t] is a token that
    verifies (non-empty, without a space, as a JWT is) and [s] is a word
    without a space, a request with the header ["s t"] goes on to the
    handler with the identity of [t], after the one call to [jwt.verify];
    and a request whose header holds no space at all has no token part and
    is answered 403 "Access Denied" without any call. *)
Theorem gate_ignores_scheme
    (jwt_verify : string -> Z -> option identity)
    (e : env) (next : identity -> action unit)
    (s t : string) (user : identity) :
  JS.lacks " " s = true ->
  JS.lacks " " t = true ->
  t <> "" ->
  jwt_verify t (now e) = Some user ->
  (forall req w,
     Http.authorization req = Some (s ++ " " ++ t) ->
     authenticateToken jwt_verify e req next w =
     next user {| db := db w; calls := calls w ++ [JwtVerify t] |}) /\
  (forall req h w,
     Http.authorization req = Some h ->
     JS.lacks " " h = true ->
     bearer req = None /\
     authenticateToken jwt_verify e req next w = (Sent access_denied, w)).
Proof.
  intros Hs Ht Hne Hv. split.
  - intros req w H. unfold authenticateToken.
    rewrite (bearer_second_part req s t Hs Ht H).
    assert (E : String.eqb t "" = false) by (apply String.eqb_neq; exact Hne).
    rewrite E. unfold bind, jwt_verify_call, record, ret. simpl.
    rewrite Hv. reflexivity.
  - intros req h w H Hh.
    pose proof (bearer_no_space req h Hh H) as B. split; [exact B|].
    unfold authenticateToken. rewrite B. reflexivity.
Qed.

Lemma gate_ignores_scheme_witness :
  authenticateToken Sample.verify (Sample.at_time 9500)
    (Sample.post Http.PostLogout (Some "Basic t.1") [])
    (logout (Sample.at_time 9500))
    {| db := Sample.with_log [Sample.session 5000 None]; calls := [] |}
  = logout (Sample.at_time 9500) Sample.ann_identity
      {| db := Sample.with_log [Sample.session 5000 None];
         calls := [JwtVerify "t.1"] |} /\
  authenticateToken Sample.verify (Sample.at_time 9500)
    (Sample.post Http.PostLogout (Some "t.1") [])
    (logout (Sample.at_time 9500))
    {| db := Sample.with_log [Sample.session 5000 None]; calls := [] |}
  = (Sent access_denied,
     {| db := Sample.with_log [Sample.session 5000 None]; calls := [] |}).
Proof.
  assert (Hs : JS.lacks " " "Basic" = true) by reflexivity.
  assert (Ht : JS.lacks " " "t.1" = true) by reflexivity.
  assert (Hne : "t.1" <> "") by discriminate.
  assert (Hv : Sample.verify "t.1" (now (Sample.at_time 9500))
               = Some Sample.ann_identity) by reflexivity.
  destruct (gate_ignores_scheme Sample.verify (Sample.at_time 9500)
              (logout (Sample.at_time 9500)) "Basic" "t.1"
              Sample.ann_identity Hs Ht Hne Hv) as [Hyes Hno].
  split.
  - apply (Hyes (Sample.post Http.PostLogout (Some "Basic t.1") [])
             {| db := Sample.with_log [Sample.session 5000 None];
                calls := [] |}).
    reflexivity.
  - apply (Hno (Sample.post Http.PostLogout (Some "t.1") []) "t.1"
             {| db := Sample.with_log [Sample.session 5000 None];
                calls := [] |}); reflexivity.
Defined.

(* ------------------------------------------------------------------ *)
(** ** The profile update and its email pattern *)

Module RegexFacts.

Import Regex.

Lemma append_empty (s1 s2 : string) :
  (s1 ++ s2)%string = "" -> s1 = "" /\ s2 = "".
Proof. destruct s1; simpl; [auto | discriminate]. Qed.

Lemma nullable_matches (r : regex) : nullable r = true <-> matches r "".
Proof.
  split.
  - induction r as [| |a|r1 IH1 r2 IH2|r1 IH1 r2 IH2|r IH]; simpl;
      try discriminate.
    + intros _. constructor.
    + rewrite andb_true_iff. intros [H1 H2].
      apply (matches_cat r1 r2 "" ""); auto.
    + rewrite orb_true_iff. intros [H|H];
        [apply matches_alt_left | apply matches_alt_right]; auto.
    + intros _. constructor.
  - intros H. remember ""%string as s eqn:E.
    induction H as [|a c A|r1 r2 s1 s2 _ IH1 _ IH2|r1 r2 s _ IH|r1 r2 s _ IH
                   |r|r s1 s2 _ _ _ _]; simpl; try reflexivity.
    + discriminate.
    + apply append_empty in E. destruct E as [-> ->].
      rewrite IH1, IH2; reflexivity.
    + rewrite (IH E). reflexivity.
    + rewrite (IH E). apply orb_true_r.
Qed.

(** The residual after [c] has the words that [c] completes. *)
Lemma deriv_matches (c : ascii) (r : regex) (s : string) :
  matches (deriv c r) s <-> matches r (String c s).
Proof.
  split.
  - revert s.
    induction r as [| |a|r1 IH1 r2 IH2|r1 IH1 r2 IH2|r IH]; simpl; intros s H.
    + inversion H.
    + inversion H.
    + destruct (accepts a c) eqn:A; inversion H; subst.
      constructor. exact A.
    + inversion H as [| | |x1 x2 x3 HL|x1 x2 x3 HR| |]; subst.
      * inversion HL as [| |x1 x2 s1 s2 H1 H2| | | |]; subst.
        change (String c (s1 ++ s2)) with (String c s1 ++ s2)%string.
        constructor; auto.
      * destruct (nullable r1) eqn:N; [|inversion HR].
        change (String c s) with ("" ++ String c s)%string.
        constructor; [apply nullable_matches; exact N | auto].
    + inversion H; subst;
        [apply matches_alt_left | apply matches_alt_right]; auto.
    + inversion H as [| |x1 x2 s1 s2 H1 H2| | | |]; subst.
      change (String c (s1 ++ s2)) with (String c s1 ++ s2)%string.
      constructor; auto.
  - intros H. remember (String c s) as w eqn:E. revert c s E.
    induction H as [|a d A|r1 r2 s1 s2 H1 IH1 H2 IH2|r1 r2 w _ IH|r1 r2 w _ IH
                   |r|r s1 s2 H1 IH1 H2 IH2]; intros c s E; simpl.
    + discriminate.
    + injection E as -> <-. rewrite A. constructor.
    + destruct s1 as [|d s1']; simpl in E.
      * apply matches_alt_right.
        rewrite (proj2 (nullable_matches r1) H1). auto.
      * injection E as -> <-. apply matches_alt_left.
        constructor; auto.
    + apply matches_alt_left. auto.
    + apply matches_alt_right. auto.
    + discriminate.
    + destruct s1 as [|d s1']; simpl in E.
      * exact (IH2 c s E).
      * injection E as -> <-. constructor; auto.
Qed.

(** [matches_prefix] finds a word of the pattern at the front. *)
Lemma matches_prefix_spec (s : string) :
  forall r, matches_prefix r s = true <->
            exists p q, s = (p ++ q)%string /\ matches r p.
Proof.
  induction s as [|c rest IH]; intros r; simpl.
  - rewrite orb_false_r, nullable_matches. split.
    + intros H. exists ""%string, ""%string. auto.
    + intros (p & q & E & H). symmetry in E.
      apply append_empty in E. destruct E as [-> _]. exact H.
  - rewrite orb_true_iff, IH, nullable_matches. split.
    + intros [H|(p & q & -> & H)].
      * exists ""%string, (String c rest). auto.
      * exists (String c p), q. split; [reflexivity|].
        apply deriv_matches. exact H.
    + intros (p & q & E & H). destruct p as [|d p']; [left; exact H|].
      simpl in E. injection E as <- ->. right.
      exists p', q. split; [reflexivity|]. apply deriv_matches. exact H.
Qed.

(** [test] finds a word of the pattern anywhere in the string: nothing
    ties the match to the ends of the string. *)
Lemma test_spec (r : regex) (s : string) :
  test r s = true <->
  exists front p back, s = (front ++ p ++ back)%string /\ matches r p.
Proof.
  induction s as [|c rest IH].
  - simpl. rewrite !orb_false_r, nullable_matches. split.
    + intros H. exists ""%string, ""%string, ""%string. auto.
    + intros (f & p & b & E & H). symmetry in E.
      apply append_empty in E. destruct E as [_ E].
      apply append_empty in E. destruct E as [-> _]. exact H.
  - change (test r (String c rest))
      with (matches_prefix r (String c rest) || test r rest).
    rewrite orb_true_iff, IH, matches_prefix_spec. split.
    + intros [(p & q & E & H)|(f & p & b & -> & H)].
      * exists ""%string, p, q. auto.
      * exists (String c f), p, b. auto.
    + intros (f & p & b & E & H). destruct f as [|d f'].
      * left. exists p, b. auto.
      * simpl in E. injection E as <- ->. right. exists f', p, b. auto.
Qed.

Lemma needs_at_not_nullable (r : regex) :
  needs_at r = true -> nullable r = false.
Proof.
  induction r as [| |a|r1 IH1 r2 IH2|r1 IH1 r2 IH2|r IH]; simpl;
    try discriminate; try reflexivity.
  - rewrite orb_true_iff. intros [H|H].
    + rewrite (IH1 H). reflexivity.
    + rewrite (IH2 H). apply andb_false_r.
  - rewrite andb_true_iff. intros [H1 H2].
    rewrite (IH1 H1), (IH2 H2). reflexivity.
Qed.

(** Reading a character other than [@] leaves the need for one. *)
Lemma needs_at_deriv (c : ascii) (r : regex) :
  Ascii.eqb c "@" = false -> needs_at r = true ->
  needs_at (deriv c r) = true.
Proof.
  intros Hc.
  induction r as [| |a|r1 IH1 r2 IH2|r1 IH1 r2 IH2|r IH]; simpl;
    try discriminate; try reflexivity.
  - destruct a as [d|]; [|discriminate].
    intros Hd. apply Ascii.eqb_eq in Hd. subst d. simpl.
    rewrite Hc. reflexivity.
  - rewrite orb_true_iff. intros [H|H].
    + rewrite (IH1 H), (needs_at_not_nullable r1 H). reflexivity.
    + rewrite H, orb_true_r. simpl.
      destruct (nullable r1); [exact (IH2 H) | reflexivity].
  - rewrite andb_true_iff. intros [H1 H2].
    rewrite (IH1 H1), (IH2 H2). reflexivity.
Qed.

Lemma no_prefix_without_at (s : string) :
  forall r, JS.lacks "@" s = true -> needs_at r = true ->
    matches_prefix r s = false.
Proof.
  induction s as [|c rest IH]; intros r; simpl.
  - intros _ H. rewrite (needs_at_not_nullable r H). reflexivity.
  - rewrite andb_true_iff, negb_true_iff. intros [Hc Hrest] H.
    rewrite (needs_at_not_nullable r H). simpl.
    apply IH; [exact Hrest | apply needs_at_deriv; assumption].
Qed.

Lemma test_cons (r : regex) (c : ascii) (rest : string) :
  test r (String c rest) = matches_prefix r (String c rest) || test r rest.
Proof. reflexivity. Qed.

(** A string without [@] has no match of a pattern that needs one. *)
Lemma no_match_without_at (r : regex) (s : string) :
  needs_at r = true -> JS.lacks "@" s = true -> test r s = false.
Proof.
  intros H. induction s as [|c rest IH]; intros L.
  - simpl. rewrite (needs_at_not_nullable r H). reflexivity.
  - rewrite test_cons, (no_prefix_without_at _ r L H). simpl orb.
    apply IH. simpl in L. apply andb_true_iff in L. apply L.
Qed.

(** The pattern has no anchor: what matches still matches after any
    text put in front of it. *)
Lemma test_after_prefix (r : regex) (p s : string) :
  test r s = true -> test r (p ++ s) = true.
Proof.
  intros H. induction p as [|c rest IH]; [exact H|].
  change ((String c rest ++ s)%string) with (String c (rest ++ s)).
  rewrite test_cons, IH. apply orb_true_r.
Qed.

End RegexFacts.

Lemma respond_updateProfile (collate : string -> string -> bool)
    (req : Http.request) (user : identity) (d : Db.database) :
  respond (updateProfile collate req user) d =
  if negb (Regex.test Regex.email_pattern
             (JS.to_string (Http.field req "email")))
  then (Some invalid_email, d, [])
  else
    match Db.select_other_users collate d
            (Db.bind (Http.field req "username"))
            (Db.bind (Http.field req "email")) (ident_id user) with
    | _ :: _ =>
        (Some {| Http.status := 400;
                 Http.body := Http.message "Username or email already in use" |},
         d, [profile_select req (ident_id user)])
    | [] =>
        let updated :=
          Db.update_user d (Db.bind (Http.field req "firstName"))
            (Db.bind (Http.field req "lastName"))
            (Db.bind (Http.field req "username"))
            (Db.bind (Http.field req "email")) (ident_id user) in
        (Some (if fst updated =? 0
               then {| Http.status := 404;
                       Http.body :=
                         Http.message "User not found or no changes made" |}
               else {| Http.status := 200;
                       Http.body :=
                         Http.message "Profile updated successfully" |}),
         snd updated,
         [profile_select req (ident_id user);
          profile_update req (ident_id user)])
    end.
Proof.
  unfold updateProfile.
  destruct (negb _); [reflexivity|].
  unfold respond, try_catch, bind, query_other_users, query_update_user,
    record, read, write, send, ret. simpl.
  destruct (Db.select_other_users collate d _ _ _); [|reflexivity].
  simpl.
  destruct (Z.of_nat (List.length (Db.select_users_by_id d (ident_id user)))
            =? 0); reflexivity.
Qed.

(** An email without [@], or no email at all, is refused before any
    query, and the database stays as it was. *)
Lemma updateProfile_refuses_without_at (collate : string -> string -> bool)
    (req : Http.request) (user : identity) (d : Db.database) :
  JS.lacks "@" (JS.to_string (Http.field req "email")) = true ->
  respond (updateProfile collate req user) d = (Some invalid_email, d, []).
Proof.
  intros L. rewrite respond_updateProfile.
  rewrite (RegexFacts.no_match_without_at Regex.email_pattern _ eq_refl L).
  reflexivity.
Qed.

(** An email the pattern accepts is accepted again behind any text and a
    space: the check never refuses it for that space. *)
Lemma updateProfile_passes_after_space (collate : string -> string -> bool)
    (req req' : Http.request) (user : identity) (d : Db.database)
    (front mail : string) :
  Http.field req "email" = JS.Str mail ->
  Http.field req' "email" = JS.Str ((front ++ " ") ++ mail) ->
  reply (updateProfile collate req user) d <> Some invalid_email ->
  reply (updateProfile collate req' user) d <> Some invalid_email.
Proof.
  unfold reply. rewrite !respond_updateProfile. intros -> ->. simpl JS.to_string.
  destruct (Regex.test Regex.email_pattern mail) eqn:T.
  - intros _.
    rewrite (RegexFacts.test_after_prefix Regex.email_pattern
               (front ++ " ") mail T).
    simpl negb. cbv iota.
    destruct (Db.select_other_users collate d _ _ _); simpl.
    + destruct (_ =? 0); discriminate.
    + discriminate.
  - simpl. intros H. exfalso. apply H. reflexivity.
Qed.

(** C7 (the code departs from it): Ann's token and the email ["a b@c.d"],
    which holds a space.  The pattern finds ["b@c.d"] in it, so the
    handler does not answer "Invalid email format": it sends both queries,
    stores the email and answers 200. *)
Theorem updateProfile_accepts_embedded_space :
  let req :=
    Sample.post Http.PutUpdateProfile (Some "Bearer t.1")
      [("firstName", JS.Str "Ann"); ("lastName", JS.Str "Lee");
       ("username", JS.Str "alee"); ("email", JS.Str "a b@c.d")] in
  let served := Sample.serve 9500 req (Sample.with_log []) in
  Regex.test Regex.email_pattern "a b@c.d" = true /\
  fst (fst served) =
    Some {| Http.status := 200;
            Http.body := Http.message "Profile updated successfully" |} /\
  map Db.email (Db.users (snd (fst served))) = [Some "a b@c.d"] /\
  filter is_query (snd served) =
    [profile_select req 1; profile_update req 1].
Proof. vm_compute. repeat split. Qed.

(* ------------------------------------------------------------------ *)
(** ** Worked requests *)

Example split_bearer : JS.split " " "Bearer abc.def" = ["Bearer"; "abc.def"].
Proof. reflexivity. Qed.

Example split_no_space : JS.split " " "abc.def" = ["abc.def"].
Proof. reflexivity. Qed.

Example split_double_space : JS.split " " "a  b" = ["a"; ""; "b"].
Proof. reflexivity. Qed.

Example email_plain : Regex.test Regex.email_pattern "ann@x.com" = true.
Proof. vm_compute. reflexivity. Qed.

Example email_no_dot : Regex.test Regex.email_pattern "ann@xcom" = false.
Proof. vm_compute. reflexivity. Qed.

Example email_no_at : Regex.test Regex.email_pattern "ann.x.com" = false.
Proof. vm_compute. reflexivity. Qed.

Example email_undefined :
  Regex.test Regex.email_pattern (JS.to_string JS.Undefined) = false.
Proof. vm_compute. reflexivity. Qed.

(** Signup, login, logout, and a second logout: 201, 200, 200, 400. *)
Example signup_login_logout_twice :
  map (option_map Http.status)
    (fst (Sample.run [(0, Sample.signup_ann); (1000, Sample.login_ann);
                      (9500, Sample.logout_ann); (9600, Sample.logout_ann)]
            Sample.empty))
  = [Some 201; Some 200; Some 200; Some 400].
Proof. vm_compute. reflexivity. Qed.

(** One login and one logout 8.5 seconds later: one CLOSED record of 8
    seconds. *)
Example login_then_logout :
  Db.user_log
    (snd (Sample.run [(0, Sample.signup_ann); (1000, Sample.login_ann);
                      (9500, Sample.logout_ann)] Sample.empty))
  = [Sample.session 1000 (Some (9500, 8))].
Proof. vm_compute. reflexivity. Qed.

(** A login with no username at all is answered 400. *)
Example login_without_username :
  fst (fst (Sample.serve 0
              (Sample.post Http.PostLogin None [("password", JS.Str "pw123")])
              (Sample.with_log [])))
  = Some invalid_credentials.
Proof. vm_compute. reflexivity. Qed.


(* ------------------------------------------------------------------ *)
(** ** Login, and how it composes with signup and logout *)

(** X1: the login answers 200 exactly when its lookup selects a row and
    [bcrypt.compare] accepts the password against the hash of the first
    row selected.  Then the token is the one signed for the id and the
    username of that row, the answer carries it with the id, and one OPEN
    record of that user, at the time of the request, is added after the
    others.  Any other answer leaves the database as it was. *)
Theorem login_succeeds_iff_accepted
    (collate : string -> string -> bool)
    (bcrypt_compare : string -> string -> bool)
    (jwt_sign : identity -> Z -> string)
    (e : env) (req : Http.request) (d : Db.database) :
  let m := login collate bcrypt_compare jwt_sign e req in
  ((exists r, reply m d = Some r /\ Http.status r = 200) <->
   exists user, credentials_accepted collate bcrypt_compare d req user) /\
  (forall user, credentials_accepted collate bcrypt_compare d req user ->
     reply m d =
       Some (logged_in (jwt_sign (payload_of user) (now e)) (Db.id user)) /\
     Db.user_log (after m d) =
       (Db.user_log d ++ [new_session (Db.id user) (now e)])%list /\
     Db.users (after m d) = Db.users d /\
     In (JwtSign (payload_of user)) (made m d)) /\
  ((forall r, reply m d = Some r -> Http.status r <> 200) ->
   after m d = d /\ forall who, ~ In (JwtSign who) (made m d)).
Proof.
  intros m. unfold reply, after, made, m. rewrite respond_login.
  unfold credentials_accepted.
  destruct (Db.select_users_by_username collate d _) as [|user rest] eqn:E.
  - simpl. split; [|split].
    + split.
      * intros (r & [= <-] & S). discriminate S.
      * intros (u & rest & p & h & H & _). discriminate H.
    + intros u (rest & p & h & H & _). discriminate H.
    + intros _. split; [reflexivity|].
      intros who [H|[]]. discriminate H.
  - destruct (Http.field req "password") as [| |p] eqn:P;
      destruct (Db.password user) as [h|] eqn:Hh; simpl;
      try (split; [|split];
           [ split;
             [ intros (r & [= <-] & S); discriminate S
             | intros (u & rest' & p' & h' & [= <- <-] & Hp & Hh' & _);
               congruence ]
           | intros u (rest' & p' & h' & [= <- <-] & Hp & Hh' & _);
             congruence
           | intros _; split; [reflexivity|];
             intros who [H|[H|[]]]; discriminate H ]).
    destruct (bcrypt_compare p h) eqn:C; simpl.
    + split; [|split].
      * split; [|intros _; eexists; split; reflexivity].
        intros _. exists user, rest, p, h. auto.
      * intros u (rest' & p' & h' & [= <- <-] & _).
        repeat split; auto.
      * intros H. exfalso. apply (H _ eq_refl). reflexivity.
    + split; [|split].
      * split.
        -- intros (r & [= <-] & S). discriminate S.
        -- intros (u & rest' & p' & h' & [= <- <-] & Hp & Hh' & C').
           assert (p' = p) by congruence. assert (h' = h) by congruence.
           subst. congruence.
      * intros u (rest' & p' & h' & [= <- <-] & Hp & Hh' & C').
        assert (p' = p) by congruence. assert (h' = h) by congruence.
        subst. congruence.
      * intros _. split; [reflexivity|].
        intros who [H|[H|[]]]; discriminate H.
Qed.

Lemma filter_none {A : Type} (f : A -> bool) (l : list A) :
  filter f l = [] <-> forall x, In x l -> f x = false.
Proof.
  induction l as [|a l IH]; simpl.
  - split; [intros _ x [] | reflexivity].
  - destruct (f a) eqn:F.
    + split; [discriminate|]. intros H. rewrite (H a) in F by auto.
      discriminate.
    + rewrite IH. split.
      * intros H x [<-|Hx]; auto.
      * intros H x Hx. apply H. auto.
Qed.

Lemma after_login_accepted
    (collate : string -> string -> bool)
    (bcrypt_compare : string -> string -> bool)
    (jwt_sign : identity -> Z -> string)
    (e : env) (req : Http.request) (d : Db.database) (user : Db.user_row) :
  credentials_accepted collate bcrypt_compare d req user ->
  respond (login collate bcrypt_compare jwt_sign e req) d =
  (Some (logged_in (jwt_sign (payload_of user) (now e)) (Db.id user)),
   Db.insert_log d (Db.id user) (now e),
   [login_select req;
    BcryptCompare (Http.field req "password") (Db.password user);
    JwtSign (payload_of user); login_insert (Db.id user) (now e)]).
Proof.
  intros (rest & p & h & S & P & H & C).
  rewrite respond_login, S. simpl. rewrite P, H, C. reflexivity.
Qed.

(** X2: a login that is accepted, followed by a logout of the same user.
    If no OPEN record of the user is later than the login, the logout
    answers 200 and closes the record of that login with the whole seconds
    between the two requests. *)
Theorem login_then_logout_closes_session
    (collate : string -> string -> bool)
    (bcrypt_compare : string -> string -> bool)
    (jwt_sign : identity -> Z -> string)
    (e e' : env) (req : Http.request) (d : Db.database)
    (user : Db.user_row) (who : identity) :
  credentials_accepted collate bcrypt_compare d req user ->
  ident_id who = Db.id user ->
  (forall r, In r (Db.user_log d) -> Db.open_for (Db.id user) r = true ->
             Db.login_time r <= now e) ->
  let d1 := after (login collate bcrypt_compare jwt_sign e req) d in
  reply (logout e' who) d1 = Some logged_out /\
  nth_error (Db.user_log (after (logout e' who) d1))
    (List.length (Db.user_log d))
  = Some (closed_at (now e') ((now e' - now e) / 1000)
            (new_session (Db.id user) (now e))).
Proof.
  intros A W Hmax d1.
  assert (D1 : d1 = Db.insert_log d (Db.id user) (now e)).
  { unfold d1, after. rewrite (after_login_accepted _ _ _ _ _ _ _ A).
    reflexivity. }
  set (fresh := new_session (Db.id user) (now e)).
  assert (Hn : nth_error (Db.user_log d1) (List.length (Db.user_log d))
               = Some fresh).
  { rewrite D1. simpl. rewrite nth_error_app2 by apply Nat.le_refl.
    rewrite Nat.sub_diag. reflexivity. }
  assert (O : Db.open_for (ident_id who) fresh = true).
  { rewrite W. unfold Db.open_for, fresh. simpl. rewrite Z.eqb_refl.
    reflexivity. }
  destruct (Db.select_latest_open_log d1 (ident_id who))
    as [|session rest] eqn:E.
  - exfalso. apply LogFacts.select_latest_none in E.
    apply (E fresh (nth_error_In _ _ Hn)); [exact (eq_sym W) | reflexivity].
  - destruct (LogFacts.select_latest_some _ _ _ _ E) as (Hin & Os & _ & Hle).
    assert (T : Db.login_time session = now e).
    { pose proof (Hle fresh (nth_error_In _ _ Hn) O) as H1. simpl in H1.
      rewrite D1 in Hin. simpl in Hin. apply in_app_or in Hin.
      destruct Hin as [Hin|[<-|[]]]; [|reflexivity].
      rewrite W in Os. pose proof (Hmax _ Hin Os). lia. }
    split.
    + rewrite reply_logout, E. reflexivity.
    + rewrite (logout_closes_all_open e' who d1 session rest E _ fresh Hn O).
      unfold sessionDuration. rewrite T. reflexivity.
Qed.

Lemma login_then_logout_closes_session_witness :
  nth_error
    (Db.user_log
       (after (logout (Sample.at_time 9500) Sample.ann_identity)
          (after (login Sample.collate Sample.compare Sample.sign
                    (Sample.at_time 1000) Sample.login_ann)
             (Sample.with_log [Sample.session 200 (Some (700, 0))])))) 1
  = Some (Sample.session 1000 (Some (9500, 8))).
Proof.
  assert (A : credentials_accepted Sample.collate Sample.compare
                (Sample.with_log [Sample.session 200 (Some (700, 0))])
                Sample.login_ann Sample.ann).
  { exists [], "pw123", "$pw123". repeat split. }
  assert (M : forall r,
             In r (Db.user_log
                     (Sample.with_log [Sample.session 200 (Some (700, 0))])) ->
             Db.open_for (Db.id Sample.ann) r = true ->
             Db.login_time r <= now (Sample.at_time 1000)).
  { intros r [<-|[]] O. discriminate O. }
  exact (proj2 (login_then_logout_closes_session Sample.collate Sample.compare
                  Sample.sign (Sample.at_time 1000) (Sample.at_time 9500)
                  Sample.login_ann _ Sample.ann Sample.ann_identity
                  A eq_refl M)).
Defined.

(* ------------------------------------------------------------------ *)
(** ** Signup, followed by a login or by another signup *)

Lemma respond_signup_fresh
    (collate : string -> string -> bool)
    (bcrypt_hash : string -> Z -> string -> string)
    (e : env) (req : Http.request) (d : Db.database) (p : string) :
  well_formed_signup req -> ~ taken collate d req ->
  Http.field req "password" = JS.Str p ->
  respond (signup collate bcrypt_hash e req) d =
  (Some created,
   Db.with_users d
     (Db.users d ++ [new_user d req (bcrypt_hash p 10 (salt e))])
     (Db.users_auto_increment d + 1),
   [signup_select req; BcryptHash (JS.Str p) 10;
    signup_insert req (bcrypt_hash p 10 (salt e))]).
Proof.
  intros W N P.
  destruct (well_formed_signup_checks req W) as (F & S & _).
  rewrite respond_signup, F, S. simpl.
  destruct (Db.select_users_by_username_or_email collate d _ _) eqn:E.
  - rewrite P. reflexivity.
  - exfalso. apply N. apply taken_iff. rewrite E. discriminate.
Qed.

(** A username nobody has selects no row. *)
Lemma untaken_username (collate : string -> string -> bool)
    (d : Db.database) (req : Http.request) :
  ~ taken collate d req ->
  Db.select_users_by_username collate d
    (Db.bind (Http.field req "username")) = [].
Proof.
  intros N. apply filter_none. intros u Hu.
  destruct (Db.text_eq collate (Db.username u) _) eqn:T; [|reflexivity].
  exfalso. apply N. exists u. auto.
Qed.

(** X3: a signup that succeeds, then a login with the same username and
    password.  If the column comparison finds the username equal to
    itself and [bcrypt.compare] accepts the password against the hash
    [bcrypt.hash] made of it, the login answers 200 for the new user,
    whose id is the auto-increment value the table had. *)
Theorem signup_then_login_succeeds
    (collate : string -> string -> bool)
    (bcrypt_hash : string -> Z -> string -> string)
    (bcrypt_compare : string -> string -> bool)
    (jwt_sign : identity -> Z -> string)
    (e e' : env) (req req' : Http.request) (d : Db.database)
    (un p : string) :
  well_formed_signup req -> ~ taken collate d req ->
  Http.field req "username" = JS.Str un -> collate un un = true ->
  Http.field req "password" = JS.Str p ->
  bcrypt_compare p (bcrypt_hash p 10 (salt e)) = true ->
  Http.field req' "username" = JS.Str un ->
  Http.field req' "password" = JS.Str p ->
  let d1 := after (signup collate bcrypt_hash e req) d in
  let user := new_user d req (bcrypt_hash p 10 (salt e)) in
  reply (signup collate bcrypt_hash e req) d = Some created /\
  reply (login collate bcrypt_compare jwt_sign e' req') d1 =
  Some (logged_in (jwt_sign (payload_of user) (now e'))
          (Db.users_auto_increment d)).
Proof.
  intros W N U R P C U' P' d1 user.
  pose proof (respond_signup_fresh collate bcrypt_hash e req d p W N P) as S.
  unfold d1, reply, after. rewrite S. simpl. split; [reflexivity|].
  assert (A : credentials_accepted collate bcrypt_compare
                (Db.with_users d (Db.users d ++ [user])
                   (Db.users_auto_increment d + 1)) req' user).
  { exists [], p, (bcrypt_hash p 10 (salt e)).
    repeat split; auto.
    unfold Db.select_users_by_username. simpl. rewrite filter_app.
    pose proof (untaken_username collate d req N) as Z0.
    unfold Db.select_users_by_username in Z0.
    rewrite U', <- U, Z0. simpl. rewrite U. simpl. rewrite R. reflexivity. }
  rewrite (after_login_accepted _ _ _ _ _ _ _ A). reflexivity.
Qed.

Lemma signup_then_login_succeeds_witness :
  reply (login Sample.collate Sample.compare Sample.sign (Sample.at_time 1000)
           Sample.login_ann)
    (after (signup Sample.collate Sample.hash (Sample.at_time 0)
              Sample.signup_ann) Sample.empty)
  = Some (logged_in "t.1" 1).
Proof.
  assert (W : well_formed_signup Sample.signup_ann).
  { split; [|reflexivity].
    intros k Hk B. unfold required_fields in Hk. simpl in Hk.
    repeat (destruct Hk as [<-|Hk];
            [destruct B as [B|[B|B]]; discriminate B|]).
    contradiction. }
  assert (N : ~ taken Sample.collate Sample.empty Sample.signup_ann).
  { intros (u & [] & _). }
  exact (proj2 (signup_then_login_succeeds Sample.collate Sample.hash
                  Sample.compare Sample.sign (Sample.at_time 0)
                  (Sample.at_time 1000) Sample.signup_ann Sample.login_ann
                  Sample.empty "alee" "pw123" W N eq_refl eq_refl eq_refl
                  eq_refl eq_refl eq_refl)).
Defined.

(** X4: after a signup that succeeds, a signup whose username or whose
    email the column comparison finds equal to the one just stored is
    answered with the conflict, and adds nothing. *)
Theorem second_signup_conflicts
    (collate : string -> string -> bool)
    (bcrypt_hash : string -> Z -> string -> string)
    (e e' : env) (req req' : Http.request) (d : Db.database) :
  well_formed_signup req -> ~ taken collate d req ->
  well_formed_signup req' ->
  Db.text_eq collate (Db.bind (Http.field req "username"))
    (Db.bind (Http.field req' "username")) = true \/
  Db.text_eq collate (Db.bind (Http.field req "email"))
    (Db.bind (Http.field req' "email")) = true ->
  let d1 := after (signup collate bcrypt_hash e req) d in
  reply (signup collate bcrypt_hash e' req') d1 = Some conflict /\
  after (signup collate bcrypt_hash e' req') d1 = d1.
Proof.
  intros W N W' Same d1.
  destruct (well_formed_signup_checks req W) as (_ & _ & p & P).
  pose proof (respond_signup_fresh collate bcrypt_hash e req d p W N P) as S.
  assert (T : taken collate d1 req').
  { exists (new_user d req (bcrypt_hash p 10 (salt e))). split.
    - unfold d1, after. rewrite S. simpl. apply in_or_app. right. left.
      reflexivity.
    - exact Same. }
  destruct (well_formed_signup_checks req' W') as (F' & S' & _).
  unfold reply, after. rewrite (respond_signup _ _ e' req' d1), F', S'. simpl.
  apply taken_iff in T.
  destruct (Db.select_users_by_username_or_email collate d1 _ _);
    [congruence|]. split; reflexivity.
Qed.

Lemma second_signup_conflicts_witness :
  reply (signup Sample.collate Sample.hash (Sample.at_time 50)
           Sample.signup_ann)
    (after (signup Sample.collate Sample.hash (Sample.at_time 0)
              Sample.signup_ann) Sample.empty)
  = Some conflict.
Proof.
  assert (W : well_formed_signup Sample.signup_ann).
  { split; [|reflexivity].
    intros k Hk B. unfold required_fields in Hk. simpl in Hk.
    repeat (destruct Hk as [<-|Hk];
            [destruct B as [B|[B|B]]; discriminate B|]).
    contradiction. }
  assert (N : ~ taken Sample.collate Sample.empty Sample.signup_ann).
  { intros (u & [] & _). }
  exact (proj1 (second_signup_conflicts Sample.collate Sample.hash
                  (Sample.at_time 0) (Sample.at_time 50) Sample.signup_ann
                  Sample.signup_ann Sample.empty W N W (or_introl eq_refl))).
Defined.

(* ------------------------------------------------------------------ *)
(** ** More on the auth gate *)

Lemma split_from_pieces_lack (c : ascii) (s : string) :
  JS.lacks c (fst (JS.split_from c s)) = true /\
  forall piece, In piece (snd (JS.split_from c s)) ->
                JS.lacks c piece = true.
Proof.
  induction s as [|d rest [IH1 IH2]]; simpl.
  - split; [reflexivity | intros piece []].
  - destruct (JS.split_from c rest) as [piece pieces]. simpl in *.
    destruct (Ascii.eqb d c) eqn:D; simpl.
    + split; [reflexivity|]. intros q [<-|Hq]; auto.
    + rewrite D. simpl. split; [exact IH1 | exact IH2].
Qed.

(** No piece of [s.split(c)] holds a [c]. *)
Lemma split_pieces_lack (c : ascii) (s piece : string) :
  In piece (JS.split c s) -> JS.lacks c piece = true.
Proof.
  unfold JS.split.
  pose proof (split_from_pieces_lack c s) as [H1 H2].
  destruct (JS.split_from c s) as [first others]. simpl in *.
  intros [<-|H]; auto.
Qed.

Lemma bearer_lacks_space (req : Http.request) (t : string) :
  bearer req = Some t -> JS.lacks " " t = true.
Proof.
  unfold bearer. destruct (Http.authorization req) as [h|]; [|discriminate].
  intros H. apply nth_error_In in H.
  apply (split_pieces_lack " " h t H).
Qed.

(** The outcomes of the gate, case by case. *)
Lemma gate_outcomes
    (jwt_verify : string -> Z -> option identity)
    (e : env) (req : Http.request) (next : identity -> action unit)
    (w : world) :
  ((bearer req = None \/ bearer req = Some "") /\
   authenticateToken jwt_verify e req next w = (Sent access_denied, w)) \/
  (exists t,
     bearer req = Some t /\ t <> "" /\ JS.lacks " " t = true /\
     let w' := {| db := db w; calls := calls w ++ [JwtVerify t] |} in
     (jwt_verify t (now e) = None /\
      authenticateToken jwt_verify e req next w =
      (Sent {| Http.status := 403;
               Http.body := Http.message "Invalid token" |}, w')) \/
     (exists user,
        jwt_verify t (now e) = Some user /\
        authenticateToken jwt_verify e req next w = next user w')).
Proof.
  unfold authenticateToken.
  destruct (bearer req) as [t|] eqn:B; [|left; auto].
  destruct (String.eqb_spec t "") as [->|Hne]; [left; auto|].
  right. exists t. split; [reflexivity|]. split; [exact Hne|].
  split; [apply (bearer_lacks_space req t B)|].
  unfold bind, jwt_verify_call, record, ret. simpl.
  destruct (jwt_verify t (now e)) as [user|]; [right; eauto | left; auto].
Qed.


(** X6: the four routes behind the gate.  When the request has no token
    that verifies, the answer is 403, the database is as before, and no
    statement was sent to the database. *)
Theorem protected_route_needs_token
    (collate : string -> string -> bool)
    (bcrypt_hash : string -> Z -> string -> string)
    (bcrypt_compare : string -> string -> bool)
    (jwt_sign : identity -> Z -> string)
    (jwt_verify : string -> Z -> option identity)
    (e : env) (req : Http.request) (d : Db.database) :
  In (Http.target req)
    [Http.PostLogout; Http.GetUsername; Http.GetProfile;
     Http.PutUpdateProfile] ->
  (forall t, bearer req = Some t -> jwt_verify t (now e) = None) ->
  exists r cs,
    serve collate bcrypt_hash bcrypt_compare jwt_sign jwt_verify e req d
    = (Some r, d, cs) /\
    Http.status r = 403 /\
    filter is_query cs = [].
Proof.
  intros T V. unfold serve, respond, app.
  assert (G : forall next,
             exists r cs,
               authenticateToken jwt_verify e req next
                 {| db := d; calls := [] |}
               = (Sent r, {| db := d; calls := cs |}) /\
               Http.status r = 403 /\ filter is_query cs = []).
  { intros next.
    destruct (gate_outcomes jwt_verify e req next {| db := d; calls := [] |})
      as [[_ H]|(t & B & _ & _ & [[_ H]|(user & Hv & _)])].
    - rewrite H. eexists _, _. repeat split.
    - rewrite H. eexists _, _. repeat split.
    - rewrite (V t B) in Hv. discriminate. }
  simpl in T.
  destruct T as [T|[T|[T|[T|[]]]]]; rewrite <- T;
    match goal with
    | |- context [authenticateToken _ _ _ ?next _] =>
        destruct (G next) as (r & cs & -> & S & Q)
    end;
    exists r, cs; auto.
Qed.

Lemma protected_route_needs_token_witness :
  exists r cs,
    serve Sample.collate Sample.hash Sample.compare Sample.sign Sample.verify
      (Sample.at_time 9500)
      (Sample.post Http.GetProfile (Some "Bearer t.9") [])
      (Sample.with_log [])
    = (Some r, Sample.with_log [], cs) /\
    Http.status r = 403 /\
    filter is_query cs = [].
Proof.
  apply protected_route_needs_token.
  - simpl. auto.
  - intros t [= <-]. reflexivity.
Defined.

(** X7: two edges of [split(' ')[1]].  With two spaces after the scheme
    the second part is empty, so the request is answered 403 "Access
    Denied" whatever follows, a token that verifies included; and with a
    space after the token, what follows that space is ignored. *)
Theorem gate_on_extra_spaces
    (jwt_verify : string -> Z -> option identity)
    (e : env) (req : Http.request) (next : identity -> action unit)
    (s t : string) :
  JS.lacks " " s = true ->
  (Http.authorization req = Some (s ++ "  " ++ t) ->
   forall w,
     authenticateToken jwt_verify e req next w = (Sent access_denied, w)) /\
  (forall junk,
     JS.lacks " " t = true ->
     Http.authorization req = Some (s ++ " " ++ t ++ " " ++ junk) ->
     bearer req = Some t).
Proof.
  intros Hs. split.
  - intros H w. unfold authenticateToken, bearer. rewrite H. simpl.
    rewrite (SplitFacts.split_app " " s (String " " t) Hs).
    rewrite (SplitFacts.split_app " " "" t eq_refl
             : JS.split " " (String " " t) = "" :: JS.split " " t).
    reflexivity.
  - intros junk Ht H. unfold bearer. rewrite H. simpl.
    rewrite (SplitFacts.split_app " " s (t ++ String " " junk) Hs).
    rewrite (SplitFacts.split_app " " t junk Ht). reflexivity.
Qed.

Lemma gate_on_extra_spaces_witness :
  authenticateToken Sample.verify (Sample.at_time 9500)
    (Sample.post Http.PostLogout (Some "Bearer  t.1") [])
    (logout (Sample.at_time 9500))
    {| db := Sample.with_log [Sample.session 5000 None]; calls := [] |}
  = (Sent access_denied,
     {| db := Sample.with_log [Sample.session 5000 None]; calls := [] |}).
Proof.
  apply (proj1 (gate_on_extra_spaces Sample.verify (Sample.at_time 9500)
                  (Sample.post Http.PostLogout (Some "Bearer  t.1") [])
                  (logout (Sample.at_time 9500)) "Bearer" "t.1" eq_refl)).
  reflexivity.
Defined.

(* ------------------------------------------------------------------ *)
(** ** What no route does *)

Ltac keeps_steps refl trans :=
  repeat first
    [ apply (keeps_bind _ trans); [|intros ?]
    | apply (keeps_try_catch _ trans); [|intros ?]
    | apply (keeps_send _ refl)
    | apply (keeps_ret _ refl)
    | apply (keeps_throw _ refl)
    | apply (keeps_record _ refl)
    | apply (keeps_read _ refl)
    | match goal with
      | |- keeps _ (if ?b then _ else _) => destruct b
      | |- keeps _ (match ?x with _ => _ end) => destruct x
      end ].

(** A relation that every statement which writes respects is respected
    by every route. *)
Section EveryRoute.

Variable R : Db.database -> Db.database -> Prop.
Hypothesis R_refl : forall d, R d d.
Hypothesis R_trans : forall d1 d2 d3, R d1 d2 -> R d2 d3 -> R d1 d3.

Hypothesis R_insert_user :
  forall d fn ln un em pw, R d (Db.insert_user d fn ln un em pw).
Hypothesis R_insert_log :
  forall d uid time, R d (Db.insert_log d uid time).
Hypothesis R_update_open_logs :
  forall d time duration uid, R d (Db.update_open_logs d time duration uid).
Hypothesis R_update_user :
  forall d fn ln un em uid, R d (snd (Db.update_user d fn ln un em uid)).

Variable collate : string -> string -> bool.
Variable bcrypt_hash : string -> Z -> string -> string.
Variable bcrypt_compare : string -> string -> bool.
Variable jwt_sign : identity -> Z -> string.
Variable jwt_verify : string -> Z -> option identity.

Lemma gate_keeps (e : env) (req : Http.request)
    (next : identity -> action unit) :
  (forall user, keeps R (next user)) ->
  keeps R (authenticateToken jwt_verify e req next).
Proof.
  intros Hnext. unfold authenticateToken, jwt_verify_call.
  keeps_steps R_refl R_trans. apply Hnext.
Qed.

Lemma app_keeps (e : env) (req : Http.request) :
  keeps R (app collate bcrypt_hash bcrypt_compare jwt_sign jwt_verify e req).
Proof.
  unfold app. destruct (Http.target req).
  - unfold signup, internal_error, query_users_by_username_or_email,
      bcrypt_hash_call, query_insert_user.
    keeps_steps R_refl R_trans; apply keeps_write; intros d;
      apply R_insert_user.
  - unfold login, internal_error, query_users_by_username,
      bcrypt_compare_call, jwt_sign_call, query_insert_log.
    keeps_steps R_refl R_trans; apply keeps_write; intros d;
      apply R_insert_log.
  - apply gate_keeps. intros user.
    unfold logout, internal_error, query_latest_open_log,
      query_update_open_logs.
    keeps_steps R_refl R_trans; apply keeps_write; intros d;
      apply R_update_open_logs.
  - apply gate_keeps. intros user.
    unfold getUsername, internal_error, query_users_by_id.
    keeps_steps R_refl R_trans.
  - apply gate_keeps. intros user.
    unfold getProfile, internal_error, query_users_by_id.
    keeps_steps R_refl R_trans.
  - apply gate_keeps. intros user.
    unfold updateProfile, query_other_users, query_update_user.
    keeps_steps R_refl R_trans; apply keeps_write; intros d;
      apply R_update_user.
  - unfold getDiseaseSolutions, query_table. keeps_steps R_refl R_trans.
  - unfold getDiseases, query_table. keeps_steps R_refl R_trans.
  - unfold getMedicine, query_table. keeps_steps R_refl R_trans.
Qed.

End EveryRoute.

Lemma grows_refl (d : Db.database) : grows d d.
Proof.
  unfold grows. repeat split; try (exists []; symmetry; apply app_nil_r).
  apply Z.le_refl.
Qed.

Lemma grows_trans (d1 d2 d3 : Db.database) :
  grows d1 d2 -> grows d2 d3 -> grows d1 d3.
Proof.
  intros ((u1 & U1) & (l1 & L1) & S1 & P1 & A1)
         ((u2 & U2) & (l2 & L2) & S2 & P2 & A2).
  unfold grows. repeat split; try congruence; try lia.
  - exists (u1 ++ u2)%list. rewrite U2, U1, app_assoc. reflexivity.
  - exists (l1 ++ l2)%list. rewrite L2, L1, app_assoc. reflexivity.
Qed.

Lemma set_profile_key (fn ln un em : Db.text) (uid : Z) (u : Db.user_row) :
  user_key (Db.set_profile fn ln un em uid u) = user_key u.
Proof. unfold Db.set_profile. destruct (Db.id u =? uid); reflexivity. Qed.

Lemma close_row_key (time duration uid : Z) (r : Db.log_row) :
  session_key (Db.close_row time duration uid r) = session_key r.
Proof. unfold Db.close_row. destruct (Db.open_for uid r); reflexivity. Qed.

Lemma app_grows
    (collate : string -> string -> bool)
    (bcrypt_hash : string -> Z -> string -> string)
    (bcrypt_compare : string -> string -> bool)
    (jwt_sign : identity -> Z -> string)
    (jwt_verify : string -> Z -> option identity)
    (e : env) (req : Http.request) (d : Db.database) :
  grows d
    (snd (fst (serve collate bcrypt_hash bcrypt_compare jwt_sign jwt_verify
                 e req d))).
Proof.
  apply (keeps_respond grows).
  apply (app_keeps grows grows_refl grows_trans); intros; unfold grows; simpl;
    repeat split;
    try (exists []; symmetry; apply app_nil_r); try lia.
  - eexists. rewrite map_app. reflexivity.
  - eexists. rewrite map_app. reflexivity.
  - exists []. rewrite app_nil_r, map_map. apply map_ext.
    intros r. apply close_row_key.
  - exists []. rewrite app_nil_r, map_map. apply map_ext.
    intros u. apply set_profile_key.
Qed.


(** X9: no request deletes a session record, moves one, or changes the
    user or the login time of one: after any request the user ids and
    login times of the records are those before it, in the same order,
    possibly followed by those of new records. *)
Theorem sessions_keep_user_and_login_time
    (collate : string -> string -> bool)
    (bcrypt_hash : string -> Z -> string -> string)
    (bcrypt_compare : string -> string -> bool)
    (jwt_sign : identity -> Z -> string)
    (jwt_verify : string -> Z -> option identity)
    (e : env) (req : Http.request) (d : Db.database) :
  exists more,
    map session_key
      (Db.user_log
         (snd (fst (serve collate bcrypt_hash bcrypt_compare jwt_sign
                      jwt_verify e req d))))
    = (map session_key (Db.user_log d) ++ more)%list.
Proof.
  exact (proj1 (proj2 (app_grows collate bcrypt_hash bcrypt_compare jwt_sign
                         jwt_verify e req d))).
Qed.

(** X10: no request writes to [disease_solutions] or to
    [disease_products]. *)
Theorem reference_tables_never_written
    (collate : string -> string -> bool)
    (bcrypt_hash : string -> Z -> string -> string)
    (bcrypt_compare : string -> string -> bool)
    (jwt_sign : identity -> Z -> string)
    (jwt_verify : string -> Z -> option identity)
    (e : env) (req : Http.request) (d : Db.database) :
  let d' := snd (fst (serve collate bcrypt_hash bcrypt_compare jwt_sign
                        jwt_verify e req d)) in
  Db.disease_solutions d' = Db.disease_solutions d /\
  Db.disease_products d' = Db.disease_products d.
Proof.
  destruct (app_grows collate bcrypt_hash bcrypt_compare jwt_sign
              jwt_verify e req d) as (_ & _ & S & P & _).
  split; assumption.
Qed.

(** X11: the five [GET] routes change nothing in the database, with or
    without a token. *)
Theorem reading_routes_change_nothing
    (collate : string -> string -> bool)
    (bcrypt_hash : string -> Z -> string -> string)
    (bcrypt_compare : string -> string -> bool)
    (jwt_sign : identity -> Z -> string)
    (jwt_verify : string -> Z -> option identity)
    (e : env) (req : Http.request) (d : Db.database) :
  In (Http.target req) reading_routes ->
  snd (fst (serve collate bcrypt_hash bcrypt_compare jwt_sign jwt_verify
              e req d)) = d.
Proof.
  intros T. symmetry.
  apply (keeps_respond eq). unfold app.
  pose proof (@eq_refl Db.database) as refl.
  pose proof (@eq_trans Db.database) as trans.
  destruct (Http.target req);
    try (exfalso; unfold reading_routes in T; simpl in T;
         repeat (destruct T as [T|T]; [discriminate T|]); exact T).
  - unfold authenticateToken, jwt_verify_call, getUsername, internal_error,
      query_users_by_id.
    keeps_steps refl trans.
  - unfold authenticateToken, jwt_verify_call, getProfile, internal_error,
      query_users_by_id.
    keeps_steps refl trans.
  - unfold getDiseaseSolutions, query_table. keeps_steps refl trans.
  - unfold getDiseases, query_table. keeps_steps refl trans.
  - unfold getMedicine, query_table. keeps_steps refl trans.
Qed.

Lemma reading_routes_change_nothing_witness :
  snd (fst (Sample.serve 9500
              (Sample.post Http.GetProfile (Some "Bearer t.1") [])
              (Sample.with_log [Sample.session 5000 None])))
  = Sample.with_log [Sample.session 5000 None].
Proof.
  apply (reading_routes_change_nothing Sample.collate Sample.hash
           Sample.compare Sample.sign Sample.verify (Sample.at_time 9500)
           (Sample.post Http.GetProfile (Some "Bearer t.1") [])).
  simpl. auto.
Defined.

(** X12: a logout changes no user, adds and removes no session record,
    and leaves every record of another user as it was. *)
Theorem logout_touches_own_records
    (e : env) (who : identity) (d : Db.database) :
  let d' := after (logout e who) d in
  Db.users d' = Db.users d /\
  List.length (Db.user_log d') = List.length (Db.user_log d) /\
  forall i r, nth_error (Db.user_log d) i = Some r ->
    Db.user_id r <> ident_id who ->
    nth_error (Db.user_log d') i = Some r.
Proof.
  intros d'. unfold d'. rewrite after_logout.
  destruct (Db.select_latest_open_log d (ident_id who)) as [|session rest];
    [auto|].
  simpl. split; [reflexivity|]. split; [apply length_map|].
  intros i r H N. rewrite nth_error_map, H. simpl.
  rewrite LogFacts.close_row_other; [reflexivity|].
  unfold Db.open_for. apply andb_false_iff. left. apply Z.eqb_neq. exact N.
Qed.

(* ------------------------------------------------------------------ *)
(** ** Ids, usernames and emails stay distinct *)

Module DistinctFacts.



Section Collation.

Variable collate : string -> string -> bool.
Hypothesis collate_sym : forall a b, collate a b = collate b a.



End Collation.



End DistinctFacts.

Lemma preserved_refl (I : Db.database -> Prop) (d : Db.database) :
  preserved I d d.
Proof. intros H. exact H. Qed.

Lemma preserved_trans (I : Db.database -> Prop) (d1 d2 d3 : Db.database) :
  preserved I d1 d2 -> preserved I d2 d3 -> preserved I d1 d3.
Proof. unfold preserved. auto. Qed.

Section DistinctKept.

Variable collate : string -> string -> bool.
Hypothesis collate_sym : forall a b, collate a b = collate b a.
Variable bcrypt_hash : string -> Z -> string -> string.
Variable bcrypt_compare : string -> string -> bool.
Variable jwt_sign : identity -> Z -> string.
Variable jwt_verify : string -> Z -> option identity.

Let R := preserved (users_distinct collate).
Let R_refl := preserved_refl (users_distinct collate).
Let R_trans := preserved_trans (users_distinct collate).





End DistinctKept.



(* ------------------------------------------------------------------ *)
(** ** Which emails the profile update lets through *)

Module EmailFacts.

Import Regex.

Lemma star_nonspace (s : string) :
  matches (Star (One NonSpace)) s <-> all_nonspace s = true.
Proof.
  split.
  - intros H. remember (Star (One NonSpace)) as r eqn:E.
    induction H as [|a c A|r1 r2 s1 s2 _ _ _ _|r1 r2 s _ _|r1 r2 s _ _
                   |r|r s1 s2 H1 _ H2 IH2]; try discriminate E.
    + reflexivity.
    + injection E as ->. specialize (IH2 eq_refl).
      inversion H1 as [|a c A| | | | |]; subst. simpl in *.
      rewrite A, IH2. reflexivity.
  - induction s as [|c rest IH]; simpl; intros H.
    + constructor.
    + apply andb_true_iff in H. destruct H as [Hc Hrest].
      change (String c rest) with (String c "" ++ rest)%string.
      constructor; [constructor; exact Hc | apply IH; exact Hrest].
Qed.

Lemma plus_nonspace (s : string) :
  matches (Plus (One NonSpace)) s <-> run s.
Proof.
  unfold Plus, run. split.
  - intros H. inversion H as [| |r1 r2 s1 s2 H1 H2| | | |]; subst.
    inversion H1 as [|a c A| | | | |]; subst. simpl in *.
    apply star_nonspace in H2. rewrite A, H2. split; [discriminate|reflexivity].
  - intros [Hne H]. destruct s as [|c rest]; [contradiction|].
    simpl in H. apply andb_true_iff in H. destruct H as [Hc Hrest].
    change (String c rest) with (String c "" ++ rest)%string.
    constructor; [constructor; exact Hc | apply star_nonspace; exact Hrest].
Qed.

Lemma literal (c : ascii) (s : string) :
  matches (One (Lit c)) s <-> s = String c "".
Proof.
  split.
  - intros H. inversion H as [|a d A| | | | |]; subst. simpl in A.
    apply Ascii.eqb_eq in A. subst. reflexivity.
  - intros ->. constructor. simpl. apply Ascii.eqb_refl.
Qed.

(** The words of [/\S+@\S+\.\S+/]. *)
Lemma email_words (p : string) :
  matches email_pattern p <-> email_shaped p.
Proof.
  unfold email_pattern, email_shaped. split.
  - intros H.
    inversion H as [| |r1 r2 a s2 Ha H2| | | |]; subst.
    inversion H2 as [| |r1 r2 at_ s3 Hat H3| | | |]; subst.
    inversion H3 as [| |r1 r2 m s4 Hm H4| | | |]; subst.
    inversion H4 as [| |r1 r2 dot b Hdot Hb| | | |]; subst.
    apply literal in Hat. apply literal in Hdot. subst.
    exists a, m, b. rewrite <- !plus_nonspace. auto.
  - intros (a & m & b & Ha & Hm & Hb & ->).
    constructor; [apply plus_nonspace; exact Ha|].
    change ("@" ++ m ++ "." ++ b)%string
      with (String "@" "" ++ (m ++ String "." "" ++ b))%string.
    constructor; [apply literal; reflexivity|].
    constructor; [apply plus_nonspace; exact Hm|].
    constructor; [apply literal; reflexivity | apply plus_nonspace; exact Hb].
Qed.

(** [test] accepts exactly the strings that hold an email-shaped piece. *)
Lemma test_email (s : string) :
  test email_pattern s = true <-> holds_email s.
Proof.
  unfold holds_email. rewrite RegexFacts.test_spec. split.
  - intros (f & p & b & E & H). exists f, p, b. rewrite <- email_words. auto.
  - intros (f & p & b & E & H). exists f, p, b. rewrite email_words. auto.
Qed.

End EmailFacts.

(** X14: the profile update answers 400 "Invalid email format" exactly
    when the email, read as a string, holds nowhere a piece made of a run
    of non-space characters, an [@], a run, a dot and a run.  It has then
    sent no statement, and the database is as it was. *)
Theorem updateProfile_refuses_iff_no_email_piece
    (collate : string -> string -> bool)
    (req : Http.request) (user : identity) (d : Db.database) :
  let m := updateProfile collate req user in
  (reply m d = Some invalid_email <->
   ~ holds_email (JS.to_string (Http.field req "email"))) /\
  (reply m d = Some invalid_email -> after m d = d /\ made m d = []).
Proof.
  intros m. unfold reply, after, made, m. rewrite respond_updateProfile.
  rewrite <- EmailFacts.test_email.
  destruct (Regex.test Regex.email_pattern _); simpl.
  - split.
    + split; [|intros H; exfalso; apply H; reflexivity].
      destruct (Db.select_other_users collate d _ _ _); simpl.
      * destruct (_ =? 0); discriminate.
      * discriminate.
    + destruct (Db.select_other_users collate d _ _ _); simpl.
      * destruct (_ =? 0); discriminate.
      * discriminate.
  - split; [|auto]. split; [discriminate | reflexivity].
Qed.

(* ------------------------------------------------------------------ *)
(** ** The profile update and the profile read *)









(* ------------------------------------------------------------------ *)
(** ** Every request is answered *)

Lemma answers_reply (codes : list Z) (m : action unit) (d : Db.database) :
  answers codes m ->
  exists r, reply m d = Some r /\ In (Http.status r) codes.
Proof.
  intros H. unfold reply, respond.
  destruct (H {| db := d; calls := [] |}) as (r & w' & -> & S).
  exists r. auto.
Qed.

Lemma gate_answers (codes : list Z)
    (jwt_verify : string -> Z -> option identity)
    (e : env) (req : Http.request) (next : identity -> action unit) :
  In 403 codes ->
  (forall user, answers codes (next user)) ->
  answers codes (authenticateToken jwt_verify e req next).
Proof.
  intros C H w.
  destruct (gate_outcomes jwt_verify e req next w)
    as [[_ ->]|(t & _ & _ & _ & [[_ ->]|(user & _ & ->)])].
  - eexists _, _. split; [reflexivity | exact C].
  - eexists _, _. split; [reflexivity | exact C].
  - apply H.
Qed.

Ltac answer_by_cases :=
  simpl;
  repeat match goal with
         | |- context [match ?x with _ => _ end] =>
             lazymatch x with
             | context [match _ with _ => _ end] => fail
             | _ => destruct x; simpl
             end
         end;
  eexists _, _; (split; [reflexivity | simpl; tauto]).

Lemma logout_answers (e : env) (user : identity) :
  answers (statuses Http.PostLogout) (logout e user).
Proof.
  intros w.
  unfold logout, try_catch, bind, query_latest_open_log,
    query_update_open_logs, internal_error, record, read, write, send.
  answer_by_cases.
Qed.

Lemma getUsername_answers (user : identity) :
  answers (statuses Http.GetUsername) (getUsername user).
Proof.
  intros w.
  unfold getUsername, try_catch, bind, query_users_by_id, internal_error,
    record, read, send.
  answer_by_cases.
Qed.

Lemma getProfile_answers (user : identity) :
  answers (statuses Http.GetProfile) (getProfile user).
Proof.
  intros w.
  unfold getProfile, try_catch, bind, query_users_by_id, internal_error,
    record, read, send.
  answer_by_cases.
Qed.

Lemma updateProfile_answers (collate : string -> string -> bool)
    (req : Http.request) (user : identity) :
  answers (statuses Http.PutUpdateProfile) (updateProfile collate req user).
Proof.
  intros w.
  unfold updateProfile, try_catch, bind, query_other_users, query_update_user,
    record, read, write, send, ret.
  destruct (negb _); [answer_by_cases|]. simpl.
  destruct (Db.select_other_users collate (db w) _ _ _); simpl.
  - destruct (_ =? 0); answer_by_cases.
  - answer_by_cases.
Qed.

(** The signup hands [bcrypt.hash] a password its first check found
    truthy, so a string. *)
Lemma signup_answers (collate : string -> string -> bool)
    (bcrypt_hash : string -> Z -> string -> string)
    (e : env) (req : Http.request) (d : Db.database) :
  exists r, reply (signup collate bcrypt_hash e req) d = Some r /\
            In (Http.status r) (statuses Http.PostSignup).
Proof.
  unfold reply. rewrite respond_signup.
  destruct (some_field_falsy req) eqn:F;
    [eexists; split; [reflexivity | simpl; tauto]|].
  destruct (negb _); [eexists; split; [reflexivity | simpl; tauto]|].
  destruct (Db.select_users_by_username_or_email collate d _ _);
    [|eexists; split; [reflexivity | simpl; tauto]].
  destruct (Http.field req "password") as [| |p] eqn:P;
    try (unfold some_field_falsy in F; rewrite P in F; simpl in F;
         rewrite ?orb_true_r in F; simpl in F; discriminate F).
  eexists; split; [reflexivity | simpl; tauto].
Qed.

Lemma login_answers (collate : string -> string -> bool)
    (bcrypt_compare : string -> string -> bool)
    (jwt_sign : identity -> Z -> string)
    (e : env) (req : Http.request) (d : Db.database) :
  exists r, reply (login collate bcrypt_compare jwt_sign e req) d = Some r /\
            In (Http.status r) (statuses Http.PostLogin).
Proof.
  unfold reply. rewrite respond_login.
  destruct (Db.select_users_by_username collate d _) as [|user rest];
    [eexists; split; [reflexivity | simpl; tauto]|].
  simpl.
  destruct (Http.field req "password") as [| |p];
    destruct (Db.password user) as [h|];
    try (eexists; split; [reflexivity | simpl; tauto]).
  destruct (bcrypt_compare p h); eexists; split;
    try reflexivity; simpl; tauto.
Qed.

(** X17: as long as the database executes the statements, every request
    gets a response, and its status is one of those of its route: 201 or
    400 for the signup; 200, 400 or 500 for the login; 200, 400 or 403
    for the logout; 200, 403 or 404 for the two reads of the user; 200,
    400, 403 or 404 for the profile update; 200 for the three lists. *)
Theorem every_request_is_answered
    (collate : string -> string -> bool)
    (bcrypt_hash : string -> Z -> string -> string)
    (bcrypt_compare : string -> string -> bool)
    (jwt_sign : identity -> Z -> string)
    (jwt_verify : string -> Z -> option identity)
    (e : env) (req : Http.request) (d : Db.database) :
  exists r,
    fst (fst (serve collate bcrypt_hash bcrypt_compare jwt_sign jwt_verify
                e req d)) = Some r /\
    In (Http.status r) (statuses (Http.target req)).
Proof.
  change (exists r,
            reply (app collate bcrypt_hash bcrypt_compare jwt_sign jwt_verify
                     e req) d = Some r /\
            In (Http.status r) (statuses (Http.target req))).
  unfold app. destruct (Http.target req).
  - apply signup_answers.
  - apply login_answers.
  - apply answers_reply, gate_answers; [simpl; tauto|]. apply logout_answers.
  - apply answers_reply, gate_answers; [simpl; tauto|].
    apply getUsername_answers.
  - apply answers_reply, gate_answers; [simpl; tauto|].
    apply getProfile_answers.
  - apply answers_reply, gate_answers; [simpl; tauto|].
    apply updateProfile_answers.
  - apply answers_reply. intros w.
    unfold getDiseaseSolutions, try_catch, bind, query_table, record, read,
      send.
    answer_by_cases.
  - apply answers_reply. intros w.
    unfold getDiseases, try_catch, bind, query_table, record, read, send.
    answer_by_cases.
  - apply answers_reply. intros w.
    unfold getMedicine, try_catch, bind, query_table, record, read, send.
    answer_by_cases.
Qed.

(* ------------------------------------------------------------------ *)
(** ** A logout and the token *)

Lemma same_users_refl (d : Db.database) : Db.users d = Db.users d.
Proof. reflexivity. Qed.

Lemma same_users_trans (d1 d2 d3 : Db.database) :
  Db.users d2 = Db.users d1 -> Db.users d3 = Db.users d2 ->
  Db.users d3 = Db.users d1.
Proof. congruence. Qed.

(** The two reads of the user look at the [users] table only. *)
Lemma user_reads_depend_on_users
    (collate : string -> string -> bool)
    (bcrypt_hash : string -> Z -> string -> string)
    (bcrypt_compare : string -> string -> bool)
    (jwt_sign : identity -> Z -> string)
    (jwt_verify : string -> Z -> option identity)
    (e : env) (req : Http.request) (d1 d2 : Db.database) :
  In (Http.target req) [Http.GetUsername; Http.GetProfile] ->
  Db.users d2 = Db.users d1 ->
  reply (app collate bcrypt_hash bcrypt_compare jwt_sign jwt_verify e req) d2
  = reply (app collate bcrypt_hash bcrypt_compare jwt_sign jwt_verify e req)
      d1.
Proof.
  intros T U. unfold reply, respond, app, authenticateToken.
  simpl in T. destruct T as [<-|[<-|[]]];
    (destruct (bearer req) as [t|]; [|reflexivity];
     destruct (String.eqb t ""); [reflexivity|];
     unfold bind, jwt_verify_call, record, ret; simpl;
     destruct (jwt_verify t (now e)) as [user|]; [|reflexivity];
     unfold getUsername, getProfile, try_catch, bind, query_users_by_id,
       record, read, send; simpl;
     unfold Db.select_users_by_id; rewrite U;
     destruct (filter _ (Db.users d1)); reflexivity).
Qed.

(** X18: a logout does not revoke the token.  Whatever the logout request
    did, a read of the user's name or profile served after it gets the
    response it would have got without it; so a token that verified
    before the logout is accepted after it, as long as [jwt.verify]
    accepts it. *)
Theorem logout_does_not_revoke
    (collate : string -> string -> bool)
    (bcrypt_hash : string -> Z -> string -> string)
    (bcrypt_compare : string -> string -> bool)
    (jwt_sign : identity -> Z -> string)
    (jwt_verify : string -> Z -> option identity)
    (e e' : env) (out req : Http.request) (d : Db.database) :
  Http.target out = Http.PostLogout ->
  In (Http.target req) [Http.GetUsername; Http.GetProfile] ->
  fst (fst (serve collate bcrypt_hash bcrypt_compare jwt_sign jwt_verify e'
              req
              (snd (fst (serve collate bcrypt_hash bcrypt_compare jwt_sign
                           jwt_verify e out d)))))
  = fst (fst (serve collate bcrypt_hash bcrypt_compare jwt_sign jwt_verify e'
                req d)).
Proof.
  intros O T.
  apply (user_reads_depend_on_users collate bcrypt_hash bcrypt_compare
           jwt_sign jwt_verify e' req d _ T).
  apply (keeps_respond (fun d d' => Db.users d' = Db.users d)).
  unfold app. rewrite O.
  apply (gate_keeps _ same_users_refl same_users_trans). intros user.
  unfold logout, internal_error, query_latest_open_log,
    query_update_open_logs.
  keeps_steps same_users_refl same_users_trans.
  apply keeps_write. intros d0. reflexivity.
Qed.

Lemma logout_does_not_revoke_witness :
  fst (fst (Sample.serve 9600
              (Sample.post Http.GetUsername (Some "Bearer t.1") [])
              (snd (fst (Sample.serve 9500 Sample.logout_ann
                           (Sample.with_log [Sample.session 5000 None]))))))
  = fst (fst (Sample.serve 9600
                (Sample.post Http.GetUsername (Some "Bearer t.1") [])
                (Sample.with_log [Sample.session 5000 None]))).
Proof.
  apply (logout_does_not_revoke Sample.collate Sample.hash Sample.compare
           Sample.sign Sample.verify (Sample.at_time 9500)
           (Sample.at_time 9600) Sample.logout_ann
           (Sample.post Http.GetUsername (Some "Bearer t.1") [])
           (Sample.with_log [Sample.session 5000 None])).
  - reflexivity.
  - simpl. auto.
Defined.

(** X19: the logout does not clamp the duration.  When the login time
    stored on the selected record is after the time of the logout, the
    record is closed with a negative duration. *)
Theorem logout_before_login_time_is_negative
    (e : env) (who : identity) (d : Db.database)
    (session : Db.log_row) (rest : list Db.log_row) :
  Db.select_latest_open_log d (ident_id who) = session :: rest ->
  now e < Db.login_time session ->
  exists duration,
    duration < 0 /\
    forall i, nth_error (Db.user_log d) i = Some session ->
      nth_error (Db.user_log (after (logout e who) d)) i =
      Some (closed_at (now e) duration session).
Proof.
  intros E L. exists (sessionDuration (now e) (Db.login_time session)).
  split.
  - unfold sessionDuration. apply Z.div_lt_upper_bound; lia.
  - intros i Hi.
    destruct (LogFacts.select_latest_some _ _ _ _ E) as (_ & O & _).
    apply (logout_closes_all_open e who d session rest E i session Hi O).
Qed.

Lemma logout_before_login_time_is_negative_witness :
  exists duration,
    duration < 0 /\
    forall i,
      nth_error (Db.user_log (Sample.with_log [Sample.session 5000 None])) i
      = Some (Sample.session 5000 None) ->
      nth_error
        (Db.user_log
           (after (logout (Sample.at_time 4999) Sample.ann_identity)
              (Sample.with_log [Sample.session 5000 None]))) i
      = Some (closed_at (now (Sample.at_time 4999)) duration
                (Sample.session 5000 None)).
Proof.
  apply (logout_before_login_time_is_negative (Sample.at_time 4999)
           Sample.ann_identity (Sample.with_log [Sample.session 5000 None])
           (Sample.session 5000 None) []).
  - reflexivity.
  - simpl. lia.
Defined.
